(** * Linnaeus: the chat-model abstraction and the two-model manager (LLM.py)

    A shallow embedding of [LLM.py]: the transcript built by
    [LLMBase.prepare_messages], the provider calls of the four model classes,
    and [LLMManager.chat_with_models]. *)

From stdpp Require Import base strings list.

Open Scope string_scope.
Open Scope list_scope.
Open Scope nat_scope.

(** ** Transcript data *)

(** One entry of the list handed to a provider: the dict
    [{"role": ..., "content": ...}]. *)
Record Message := { role : string; content : string }.

(** The [history] argument: a list of (user_message, assistant_message)
    tuples; [None] when the caller passes nothing. *)
Definition History := list (string * string).

(** [list.append]: the new item goes to the end. *)
Definition append {A} (l : list A) (x : A) : list A := l ++ [x].

(** Truth value of [history] in [if history:]: [None] and the empty list are
    false, every other list is true. *)
Definition truthy (history : option History) : bool :=
  match history with
  | None => false
  | Some [] => false
  | Some (_ :: _) => true
  end.

(** The items the [for] loop visits. *)
Definition turns (history : option History) : History :=
  match history with
  | None => []
  | Some h => h
  end.

(** ** Exceptions, results and the outside world *)

(** The exceptions that can travel through this code. [APIError] stands for
    whatever a provider's client library raises (no connection, a rejected
    key, an error status); the others are Python's own. *)
Inductive exn :=
  | ValueError (msg : string)
  | IndexError (msg : string)
  | TypeError (msg : string)
  | APIError (detail : string).

(** How a statement ends: with a value, with an exception, or not within the
    time it was watched ([Unfinished]; only the redraw loop of
    [random.sample] can go on without end, for as long as the generator
    repeats itself). *)
Inductive result (A : Type) :=
  | Ok (a : A)
  | Raise (e : exn)
  | Unfinished.
Arguments Ok {A} a.
Arguments Raise {A} e.
Arguments Unfinished {A}.

(** A client object of the [groq] package: [groq.Groq(api_key=...)]. *)
Module groq.

Record Groq := { api_key : string }.

End groq.

(** How a request reaches its provider: through a [groq.Groq] client object
    that holds its key, or through the [openai] module, whose key is the
    module attribute [openai.api_key]. *)
Inductive Transport :=
  | GroqClient (client : groq.Groq)
  | OpenAIModule (api_key : option string).

(** The keyword arguments of [chat.completions.create] and of
    [ChatCompletion.create]. *)
Record Request := {
  transport : Transport;
  model : string;
  messages : list Message;
  max_tokens : nat;
}.

(** The message of an answer. Its content can be null: the client libraries
    declare it optional. *)
Module reply.

Record t := { role : string; content : option string }.

End reply.

(** The envelope a provider answers with. *)
Record Choice := { message : reply.t }.
Record ChatCompletion := { choices : list Choice }.

(** What the program does to the outside: requests to providers and lines
    written by [print], in the order they happen. *)
Inductive Event :=
  | ApiCall (req : Request)
  | Print (line : string).

(** Mutable Python objects, by reference. *)
Abbreviation loc := nat (only parsing).

Inductive object :=
  | TupleList (items : History)
  | Dict (entries : list (string * string))
  | RefList (items : list loc)
  | Instance (class : string) (attrs : list (string * string)).

(** The state of the process and of its surroundings. [providers] is the
    behaviour of the external services: the answer to a request, given all
    that happened before it. *)
Record World := {
  openai_api_key : option string;
  heap : list object;
  log : list Event;
  providers : list Event -> Request -> result ChatCompletion;
}.

Definition set_openai_api_key (key : string) (w : World) : World :=
  {| openai_api_key := Some key; heap := heap w; log := log w;
     providers := providers w |}.

Definition set_heap (h : list object) (w : World) : World :=
  {| openai_api_key := openai_api_key w; heap := h; log := log w;
     providers := providers w |}.

Definition emit (e : Event) (w : World) : World :=
  {| openai_api_key := openai_api_key w; heap := heap w;
     log := log w ++ [e]; providers := providers w |}.

(** ** Statements: state passing with exceptions *)

Definition M (A : Type) : Type := World -> World * result A.

Definition ret {A} (a : A) : M A := fun w => (w, Ok a).

Definition raise {A} (e : exn) : M A := fun w => (w, Raise e).

Definition bind {A B} (c : M A) (k : A -> M B) : M B :=
  fun w =>
    match c w with
    | (w', Ok a) => k a w'
    | (w', Raise e) => (w', Raise e)
    | (w', Unfinished) => (w', Unfinished)
    end.

Notation "x <- c ;; k" := (bind c (fun x => k))
  (at level 100, c at next level, right associativity).
Notation "c ;; k" := (bind c (fun _ => k))
  (at level 100, right associativity).

(** A pure computation that may raise. *)
Definition lift {A} (r : result A) : M A := fun w => (w, r).

(** [for x in items: s = body(s, x)] *)
Fixpoint for_each {A S} (items : list A) (body : S -> A -> M S) (s : S) : M S :=
  match items with
  | [] => ret s
  | x :: items => s' <- body s x ;; for_each items body s'
  end.

Fixpoint enumerate_from {A} (start : nat) (l : list A) : list (nat * A) :=
  match l with
  | [] => []
  | x :: l => (start, x) :: enumerate_from (S start) l
  end.

(** [enumerate(l)] *)
Definition enumerate {A} (l : list A) : list (nat * A) := enumerate_from 0 l.

(** [print(line)] *)
Definition print (line : string) : M unit := fun w => (emit (Print line) w, Ok tt).

(** [l[i]] *)
Definition index {A} (l : list A) (i : nat) : M A :=
  match l !! i with
  | Some x => ret x
  | None => raise (IndexError "list index out of range")
  end.

(** Sending a request: it is recorded, and the provider's answer (or the
    exception its client raises) comes back. *)
Definition create (req : Request) : M ChatCompletion :=
  fun w => (emit (ApiCall req) w, providers w (log w) req).

(** [completion.choices[0].message.content], when the provider answered. *)
Definition first_content (r : result ChatCompletion)
    : result (option string) :=
  match r with
  | Ok completion =>
      match choices completion with
      | choice :: _ => Ok (reply.content (message choice))
      | [] => Raise (IndexError "list index out of range")
      end
  | Raise e => Raise e
  | Unfinished => Unfinished
  end.

(** ** The model classes *)

Module LLMBase.

(** What a concrete subclass supplies: its name and the abstract method.
    What the method returns is a string or [None]. *)
Class Subclass (T : Type) := {
  __name__ : string;
  _call_model_api : T -> list Message -> M (option string);
}.

(** LLM.py, lines 9-35. *)
Definition prepare_messages (message prompt : string)
    (history : option History) : list Message :=
  let messages := [ {| role := "system"; content := prompt |} ] in
  let messages :=
    if truthy history then
      fold_left
        (fun messages '(human, assistant) =>
           let messages :=
             append messages {| role := "user"; content := human |} in
           append messages {| role := "assistant"; content := assistant |})
        (turns history) messages
    else messages in
  append messages {| role := "user"; content := message |}.

(** LLM.py, lines 51-67. *)
Definition generate_response `{Subclass T} (self : T)
    (message prompt : string) (history : option History)
    : M (option string) :=
  let messages := prepare_messages message prompt history in
  response <- _call_model_api self messages ;;
  ret response.

End LLMBase.

Module LlamaModel.

Record t := { client : groq.Groq }.

Definition __init__ (groq_api_key : string) : t :=
  {| client := {| groq.api_key := groq_api_key |} |}.

(** LLM.py, lines 81-97. *)
Definition _call_model_api (self : t) (messages : list Message)
    : M (option string) :=
  completion <- create {| transport := GroqClient (client self);
                          model := "llama-3.1-8b-instant";
                          messages := messages;
                          max_tokens := 1000 |} ;;
  choice <- index (choices completion) 0 ;;
  let response := reply.content (message choice) in
  ret response.

#[global] Instance subclass : LLMBase.Subclass t :=
  {| LLMBase.__name__ := "LlamaModel";
     LLMBase._call_model_api := _call_model_api |}.

End LlamaModel.

Module GPTModel.

(** A [GPTModel] object has no attribute of its own: the key goes to the
    [openai] module. *)
Inductive t := instance.

Definition __init__ (key : string) : M t :=
  fun w => (set_openai_api_key key w, Ok instance).

(** LLM.py, lines 111-127. *)
Definition _call_model_api (self : t) (messages : list Message)
    : M (option string) :=
  completion <- (fun w =>
                   create {| transport := OpenAIModule (openai_api_key w);
                             model := "gpt-3.5-turbo";
                             messages := messages;
                             max_tokens := 1000 |} w) ;;
  choice <- index (choices completion) 0 ;;
  let response := reply.content (message choice) in
  ret response.

#[global] Instance subclass : LLMBase.Subclass t :=
  {| LLMBase.__name__ := "GPTModel";
     LLMBase._call_model_api := _call_model_api |}.

End GPTModel.

Module MistralModel.

Record t := { client : groq.Groq }.

Definition __init__ (groq_api_key : string) : t :=
  {| client := {| groq.api_key := groq_api_key |} |}.

(** LLM.py, lines 141-157. *)
Definition _call_model_api (self : t) (messages : list Message)
    : M (option string) :=
  completion <- create {| transport := GroqClient (client self);
                          model := "mixtral-8x7b-32768";
                          messages := messages;
                          max_tokens := 1000 |} ;;
  choice <- index (choices completion) 0 ;;
  let response := reply.content (message choice) in
  ret response.

#[global] Instance subclass : LLMBase.Subclass t :=
  {| LLMBase.__name__ := "MistralModel";
     LLMBase._call_model_api := _call_model_api |}.

End MistralModel.

Module NewModel.

Record t := { api_key : string }.

Definition __init__ (api_key : string) : t := {| api_key := api_key |}.

(** LLM.py, lines 171-181. *)
Definition _call_model_api (self : t) (messages : list Message)
    : M (option string) :=
  ret (Some "New Model's response").

#[global] Instance subclass : LLMBase.Subclass t :=
  {| LLMBase.__name__ := "NewModel";
     LLMBase._call_model_api := _call_model_api |}.

End NewModel.

(** An object together with its class: what the manager's list holds. *)
Record Model := {
  cls : Type;
  cls_subclass : LLMBase.Subclass cls;
  self : cls;
}.

(** [model.__class__.__name__] *)
Definition class_name (model : Model) : string :=
  @LLMBase.__name__ (cls model) (cls_subclass model).

(** [model.generate_response(message, prompt, history)] *)
Definition generate_response (model : Model)
    (message prompt : string) (history : option History)
    : M (option string) :=
  @LLMBase.generate_response (cls model) (cls_subclass model) (self model)
    message prompt history.

Definition llama (groq_api_key : string) : Model :=
  {| cls := LlamaModel.t; cls_subclass := LlamaModel.subclass;
     self := LlamaModel.__init__ groq_api_key |}.
Definition gpt : Model :=
  {| cls := GPTModel.t; cls_subclass := GPTModel.subclass;
     self := GPTModel.instance |}.
Definition mistral (groq_api_key : string) : Model :=
  {| cls := MistralModel.t; cls_subclass := MistralModel.subclass;
     self := MistralModel.__init__ groq_api_key |}.
Definition new_model (api_key : string) : Model :=
  {| cls := NewModel.t; cls_subclass := NewModel.subclass;
     self := NewModel.__init__ api_key |}.

(** ** Choosing at random *)

Module random.

(** [random.sample(population, k)] belongs to Python's library, not to this
    repository; it is taken here as the library has it (random.py of
    Python 3.11, without the [counts] argument). [draws c] is the number the
    generator returns at its call number [c], counted from 0; it promises a
    number below the bound it is asked with. *)

(** The loop for a small population: [k] rounds, each of which draws a
    position of the pool, takes the item there and moves the last item of
    the pool into the hole. Round [i] makes call number [i]. *)
Fixpoint select {A} (draws : nat -> nat) (n : nat) (pool : list A)
    (i rounds : nat) : result (list A) :=
  match rounds with
  | 0 => Ok []
  | S rounds =>
      let j := draws i in
      match pool !! j, pool !! (n - i - 1) with
      | Some x, Some y =>
          match select draws n (<[j := y]> pool) (S i) rounds with
          | Ok rest => Ok (x :: rest)
          | other => other
          end
      | _, _ => Raise (IndexError "list index out of range")
      end
  end.

(** [j = randbelow(n); while j in selected: j = randbelow(n)], from call
    number [c] on: the position accepted and the number of the next call.
    [fuel] is the number of calls the loop is watched for. *)
Fixpoint redraw (draws : nat -> nat) (selected : list nat) (c fuel : nat)
    : option (nat * nat) :=
  match fuel with
  | 0 => None
  | S fuel =>
      let j := draws c in
      if decide (j ∈ selected) then redraw draws selected (S c) fuel
      else Some (j, S c)
  end.

(** The loop for a large population: [k] rounds, each of which draws
    positions of the population until one comes that was not taken before. *)
Fixpoint select_set {A} (fuel : nat) (draws : nat -> nat)
    (population : list A) (selected : list nat) (c rounds : nat)
    : result (list A) :=
  match rounds with
  | 0 => Ok []
  | S rounds =>
      match redraw draws selected c fuel with
      | None => Unfinished
      | Some (j, c) =>
          match population !! j with
          | Some x =>
              match select_set fuel draws population (j :: selected) c rounds with
              | Ok rest => Ok (x :: rest)
              | other => other
              end
          | None => Raise (IndexError "list index out of range")
          end
      end
  end.

(** [setsize = 21; if k > 5: setsize += 4 ** _ceil(_log(k * 3, 4))]: the
    power of 4 is the least one that is not below [3 k]. *)
Definition setsize (k : nat) : nat :=
  if 5 <? k then 21 + 4 ^ ((Nat.log2_up (k * 3) + 1) / 2) else 21.

Definition sample {A} (fuel : nat) (draws : nat -> nat) (population : list A)
    (k : nat) : result (list A) :=
  let n := length population in
  if n <? k then
    Raise (ValueError "Sample larger than population or is negative")
  else if n <=? setsize k then select draws n population 0 k
  else select_set fuel draws population [] 0 k.

(** The positions of a small population that two rounds take, from the two
    numbers drawn: the first number as it is; the second as it is too,
    unless it is the position just emptied, which by then holds what was
    the last item. *)
Definition positions (n d0 d1 : nat) : nat * nat :=
  (d0, if d1 =? d0 then n - 1 else d1).

(** The generator keeps its promise for a sample of two out of [n]: in a
    small population the first number is below [n] and the second below
    [n - 1]; in a large one every number is below [n]. *)
Definition fair (draws : nat -> nat) (n : nat) : Prop :=
  if n <=? setsize 2 then draws 0 < n /\ draws 1 < n - 1
  else forall c, draws c < n.

End random.

(** ** The manager *)

Module LLMManager.

Record t := { models : list Model }.

Definition __init__ (models : list Model) : t := {| models := models |}.

(** The four variables the loop of [chat_with_models] assigns; each starts
    as [None]. *)
Record Vars := {
  model_a_name : option string;
  model_b_name : option string;
  model_a_response : option string;
  model_b_response : option string;
}.

(** LLM.py, lines 217-227: one round of the loop. The response is stored as
    it came, be it a string or [None]. *)
Definition round (message prompt : string) (history : option History)
    (vars : Vars) (item : nat * Model) : M Vars :=
  let '(i, model) := item in
  let model_name := class_name model in
  response <- generate_response model message prompt history ;;
  print ("Response for " ++ model_name ++ " was generated") ;;
  if i =? 0 then
    ret {| model_a_name := Some model_name;
           model_a_response := response;
           model_b_name := model_b_name vars;
           model_b_response := model_b_response vars |}
  else
    ret {| model_a_name := model_a_name vars;
           model_a_response := model_a_response vars;
           model_b_name := Some model_name;
           model_b_response := response |}.

(** LLM.py, lines 195-229. [draws] is what the generator hands to
    [random.sample], [fuel] the number of calls its redraw loop is watched
    for. *)
Definition chat_with_models (fuel : nat) (draws : nat -> nat) (self : t)
    (message prompt : string) (history : option History)
    : M (option string * option string * option string * option string) :=
  if length (models self) <? 2 then
    raise (ValueError "At least two models are required to chat.")
  else
    selected_models <- lift (random.sample fuel draws (models self) 2) ;;
    vars <- for_each (enumerate selected_models)
              (round message prompt history)
              {| model_a_name := None; model_a_response := None;
                 model_b_name := None; model_b_response := None |} ;;
    ret (model_a_name vars, model_b_name vars,
         model_a_response vars, model_b_response vars).

End LLMManager.

(** ** [prepare_messages] on objects *)

(** The same method once more, this time with the lists and dicts it creates
    and receives as objects in the heap, to see what it touches. The tuples
    and strings are immutable and stay values. *)
Module Objects.

(** A new object; its reference is the next free one. *)
Definition alloc (o : object) : M loc :=
  fun w => (set_heap (heap w ++ [o]) w, Ok (length (heap w))).

(** Reading the object behind a reference. A reference that points nowhere
    does not arise in Python; here it is answered with an exception. *)
Definition load (l : loc) : M object :=
  fun w =>
    match heap w !! l with
    | Some o => (w, Ok o)
    | None => (w, Raise (TypeError "not an object"))
    end.

(** [l.append(x)] *)
Definition list_append (l : loc) (x : loc) : M unit :=
  fun w =>
    match heap w !! l with
    | Some (RefList items) =>
        (set_heap (<[l := RefList (items ++ [x])]> (heap w)) w, Ok tt)
    | _ => (w, Raise (TypeError "object has no method append"))
    end.

(** [if history:] *)
Definition truth (history : option loc) : M bool :=
  match history with
  | None => ret false
  | Some l =>
      o <- load l ;;
      match o with
      | TupleList items => ret (0 <? length items)
      | Dict entries => ret (0 <? length entries)
      | RefList items => ret (0 <? length items)
      | Instance _ _ => ret true
      end
  end.

(** The pairs the loop [for human, assistant in history] binds. The body of
    the loop writes only to [messages], a list made a few lines before, so
    the pairs are those the list holds when the loop starts. [history] is
    declared a list of tuples; any other object is answered with a
    [TypeError]. *)
Definition pairs (history : option loc) : M History :=
  match history with
  | None => raise (TypeError "'NoneType' object is not iterable")
  | Some l =>
      o <- load l ;;
      match o with
      | TupleList items => ret items
      | _ => raise (TypeError "not a list of tuples")
      end
  end.

(** LLM.py, lines 9-35. *)
Definition prepare_messages (self : loc) (message prompt : string)
    (history : option loc) : M loc :=
  d <- alloc (Dict [("role", "system"); ("content", prompt)]) ;;
  messages <- alloc (RefList [d]) ;;
  b <- truth history ;;
  (if b : bool then
     items <- pairs history ;;
     for_each items
       (fun _ '(human, assistant) =>
          d <- alloc (Dict [("role", "user"); ("content", human)]) ;;
          list_append messages d ;;
          d <- alloc (Dict [("role", "assistant"); ("content", assistant)]) ;;
          list_append messages d)
       tt
   else ret tt) ;;
  d <- alloc (Dict [("role", "user"); ("content", message)]) ;;
  list_append messages d ;;
  ret messages.

(** The dict a message is kept in. *)
Definition dict_of (msg : Message) : object :=
  Dict [("role", role msg); ("content", content msg)].

(** The objects a call adds to a heap of [n] objects when the list it
    builds is [msgs]: the dict of the first message, the list itself, then
    the dicts of the other messages. *)
Definition layout (n : nat) (msgs : list Message) : list object :=
  match msgs with
  | [] => []
  | first :: rest =>
      dict_of first :: RefList (n :: seq (n + 2) (length rest))
        :: map dict_of rest
  end.

(** The message a dict stands for. *)
Definition read_message (h : list object) (l : loc) : option Message :=
  match h !! l with
  | Some (Dict [("role", r); ("content", c)]) =>
      Some {| role := r; content := c |}
  | _ => None
  end.

(** The messages a list of dicts stands for. *)
Definition read_messages (h : list object) (l : loc) : option (list Message) :=
  match h !! l with
  | Some (RefList items) => mapM (read_message h) items
  | _ => None
  end.

(** The value of a [history] argument: nothing, or the tuples of the list it
    refers to. *)
Definition read_history (h : list object) (history : option loc)
    : option (option History) :=
  match history with
  | None => Some None
  | Some l =>
      match h !! l with
      | Some (TupleList items) => Some (Some items)
      | _ => None
      end
  end.

End Objects.

(** ** Worlds and managers to run examples in *)

(** A completion with one choice. *)
Definition answer (text : option string) : ChatCompletion :=
  {| choices := [ {| message := {| reply.role := "assistant";
                                   reply.content := text |} |} ] |}.

(** Every provider answers, with the name of the model asked. *)
Definition online (h : list object) : World :=
  {| openai_api_key := Some "sk";
     heap := h;
     log := [];
     providers := fun _ req => Ok (answer (Some (model req))) |}.

(** No provider can be reached. *)
Definition offline : World :=
  {| openai_api_key := Some "sk";
     heap := [];
     log := [];
     providers := fun _ _ => Raise (APIError "connection refused") |}.

(** Every provider answers with a message whose content is null. *)
Definition wordless : World :=
  {| openai_api_key := Some "sk";
     heap := [];
     log := [];
     providers := fun _ _ => Ok (answer None) |}.

(** Asking model [a] and then model [b], each followed by its line of
    output, and returning the two names and the two responses. *)
Definition one_after_the_other (a b : Model) (message prompt : string)
    (history : option History)
    : M (option string * option string * option string * option string) :=
  response_a <- generate_response a message prompt history ;;
  print ("Response for " ++ class_name a ++ " was generated") ;;
  response_b <- generate_response b message prompt history ;;
  print ("Response for " ++ class_name b ++ " was generated") ;;
  ret (Some (class_name a), Some (class_name b), response_a, response_b).

(** Two models of two classes, two models of one class, one model alone. *)
Definition two_classes : LLMManager.t :=
  LLMManager.__init__ [llama "gsk"; gpt].
Definition one_class : LLMManager.t :=
  LLMManager.__init__ [llama "gsk-1"; llama "gsk-2"].
Definition one_model : LLMManager.t :=
  LLMManager.__init__ [new_model "key"].

(** One object, listed twice. *)
Definition same_twice : LLMManager.t :=
  let model := llama "gsk" in LLMManager.__init__ [model; model].

(** Twenty-two models: a population large enough for the redraw loop. *)
Definition many : LLMManager.t :=
  LLMManager.__init__ (map (fun _ => new_model "key") (seq 0 22)).

(** The generator answers 0 every time. *)
Definition zeros : nat -> nat := fun _ => 0.

(** The generator answers 5 twice and 9 from then on. *)
Definition five_five_nine : nat -> nat :=
  fun c => match c with 0 | 1 => 5 | _ => 9 end.

(** ** Telling what a call did *)

(** The world after some more events, all else as it was. *)
Definition add_log (evs : list Event) (w : World) : World :=
  {| openai_api_key := openai_api_key w; heap := heap w;
     log := log w ++ evs; providers := providers w |}.

(** The requests among some events, and the lines printed. *)
Definition requests (evs : list Event) : list Request :=
  flat_map (fun e => match e with ApiCall req => [req] | Print _ => [] end) evs.

Definition printed (evs : list Event) : list string :=
  flat_map (fun e => match e with ApiCall _ => [] | Print line => [line] end) evs.

(** The objects of the four classes that LLM.py defines. *)
Definition shipped (model : Model) : Prop :=
  (exists key, model = llama key) \/ model = gpt
  \/ (exists key, model = mistral key) \/ (exists key, model = new_model key).

(** A provider that answers every request with no choice at all. *)
Definition mute : World :=
  {| openai_api_key := Some "sk";
     heap := [];
     log := [];
     providers := fun _ _ => Ok {| choices := [] |} |}.

(** ** The transcript the specification describes *)

(** The two messages one historical turn contributes. *)
Definition turn_messages (t : string * string) : list Message :=
  [ {| role := "user"; content := fst t |};
    {| role := "assistant"; content := snd t |} ].

(** System message, then every turn in order, then the new user message. *)
Definition transcript (message prompt : string) (h : History) : list Message :=
  {| role := "system"; content := prompt |}
    :: flat_map turn_messages h ++ [ {| role := "user"; content := message |} ].

Section PrepareMessages.

Import LLMBase.

Lemma history_loop (h : History) (acc : list Message) :
  fold_left
    (fun messages '(human, assistant) =>
       let messages :=
         append messages {| role := "user"; content := human |} in
       append messages {| role := "assistant"; content := assistant |})
    h acc
  = acc ++ flat_map turn_messages h.
Proof.
  revert acc. induction h as [| [human assistant] h IH]; intros acc; simpl.
  - by rewrite app_nil_r.
  - rewrite IH. unfold append. by rewrite <- !app_assoc.
Qed.

Lemma prepare_messages_transcript message prompt (history : option History) :
  prepare_messages message prompt history
  = transcript message prompt (turns history).
Proof.
  unfold prepare_messages, transcript, append.
  destruct history as [[| t h] |]; simpl truthy; cbv iota; try reflexivity.
  rewrite history_loop. reflexivity.
Qed.

(** C1: with a non-empty history, [prepare_messages] returns the system
    message carrying the prompt, then for each turn in the original order a
    user message and an assistant message, then the new user message. *)
Theorem prepare_messages_with_history (m p : string) (history : History) :
  history <> [] ->
  prepare_messages m p (Some history)
  = {| role := "system"; content := p |}
      :: flat_map
           (fun t => [ {| role := "user"; content := fst t |};
                       {| role := "assistant"; content := snd t |} ])
           history
      ++ [ {| role := "user"; content := m |} ].
Proof.
  intros _. apply (prepare_messages_transcript m p (Some history)).
Qed.

(** C5: without a history the result is the system message followed by the
    user message, and nothing else. *)
Theorem prepare_messages_no_history (m p : string) :
  prepare_messages m p None
  = [ {| role := "system"; content := p |};
      {| role := "user"; content := m |} ]
  /\ prepare_messages "hi" "sys" None
     = [ {| role := "system"; content := "sys" |};
         {| role := "user"; content := "hi" |} ].
Proof. split; reflexivity. Qed.

(** C10: an empty history list gives the same two messages as no history:
    the loop is entered only for a non-empty list. *)
Theorem prepare_messages_empty_history (m p : string) :
  truthy (Some []) = false
  /\ truthy None = false
  /\ prepare_messages m p (Some []) = prepare_messages m p None
  /\ prepare_messages m p (Some [])
     = [ {| role := "system"; content := p |};
         {| role := "user"; content := m |} ]
  /\ forall (T : Type) (S : Subclass T) (self : T),
       generate_response self m p (Some []) = generate_response self m p None.
Proof. repeat split; reflexivity. Qed.

End PrepareMessages.

(** The example of the specification: two turns, then "hi". *)
Lemma prepare_messages_with_history_example :
  [("h1", "a1"); ("h2", "a2")] <> ([] : History)
  /\ LLMBase.prepare_messages "hi" "sys" (Some [("h1", "a1"); ("h2", "a2")])
     = [ {| role := "system"; content := "sys" |};
         {| role := "user"; content := "h1" |};
         {| role := "assistant"; content := "a1" |};
         {| role := "user"; content := "h2" |};
         {| role := "assistant"; content := "a2" |};
         {| role := "user"; content := "hi" |} ].
Proof.
  split; [discriminate |].
  apply (prepare_messages_with_history "hi" "sys"
           [("h1", "a1"); ("h2", "a2")]).
  discriminate.
Defined.

(** ** Running statements *)

Section Statements.

Lemma bind_ok {A B} (c : M A) (k : A -> M B) w w' a :
  c w = (w', Ok a) -> bind c k w = k a w'.
Proof. intros E. unfold bind. by rewrite E. Qed.

Lemma bind_raise {A B} (c : M A) (k : A -> M B) w w' e :
  c w = (w', Raise e) -> bind c k w = (w', Raise e).
Proof. intros E. unfold bind. by rewrite E. Qed.

Lemma bind_unfinished {A B} (c : M A) (k : A -> M B) w w' :
  c w = (w', Unfinished) -> bind c k w = (w', Unfinished).
Proof. intros E. unfold bind. by rewrite E. Qed.

Lemma bind_ret_r {A} (c : M A) w : bind c ret w = c w.
Proof. unfold bind, ret. by destruct (c w) as [w' [a | e |]]. Qed.

Lemma bind_ret_l {A B} (a : A) (k : A -> M B) w : bind (ret a) k w = k a w.
Proof. reflexivity. Qed.

End Statements.

(** ** Two items drawn from a list *)

Section Sample.

Import random.

Context {A : Type}.

(** A small population: the two items are those at the two positions the
    draws stand for. *)
Lemma sample_two (fuel : nat) (draws : nat -> nat) (population : list A)
    (x y : A) :
  length population <= 21 ->
  draws 0 < length population ->
  draws 1 < length population - 1 ->
  population !! fst (positions (length population) (draws 0) (draws 1)) = Some x ->
  population !! snd (positions (length population) (draws 0) (draws 1)) = Some y ->
  sample fuel draws population 2 = Ok [x; y].
Proof.
  set (n := length population). intros Hsmall H0 H1 Hx Hy.
  unfold sample. fold n. change (setsize 2) with 21.
  destruct (Nat.ltb_spec n 2) as [Hlt | Hn]; [lia |].
  destruct (Nat.leb_spec n 21) as [_ | Hbig]; [| lia].
  simpl in Hx, Hy. simpl select. rewrite Hx.
  destruct (lookup_lt_is_Some_2 population (n - 0 - 1)) as [z Hz];
    [fold n; lia |].
  rewrite Hz.
  assert (Hy' : <[draws 0 := z]> population !! draws 1 = Some y).
  { destruct (Nat.eqb_spec (draws 1) (draws 0)) as [E | E].
    - rewrite E, list_lookup_insert_eq by (fold n; lia).
      rewrite <- Hy, <- Hz. f_equal. lia.
    - by rewrite list_lookup_insert_ne. }
  rewrite Hy'.
  destruct (lookup_lt_is_Some_2 (<[draws 0 := z]> population) (n - 1 - 1))
    as [z' Hz']; [rewrite length_insert; fold n; lia |].
  by rewrite Hz'.
Qed.

Lemma positions_distinct (n d0 d1 : nat) :
  d0 < n -> d1 < n - 1 ->
  fst (positions n d0 d1) < n /\ snd (positions n d0 d1) < n
  /\ fst (positions n d0 d1) <> snd (positions n d0 d1).
Proof.
  intros H0 H1. unfold positions; simpl.
  destruct (Nat.eqb_spec d1 d0); lia.
Qed.

Lemma positions_onto (n i j : nat) :
  i < n -> j < n -> i <> j ->
  exists d0 d1,
    d0 < n /\ d1 < n - 1 /\ positions n d0 d1 = (i, j)
    /\ forall d0' d1', d0' < n -> d1' < n - 1 ->
         positions n d0' d1' = (i, j) -> d0' = d0 /\ d1' = d1.
Proof.
  intros Hi Hj Hij.
  exists i, (if j =? n - 1 then i else j).
  unfold positions.
  destruct (Nat.eqb_spec j (n - 1)) as [E | E].
  - split; [lia | split; [lia | split]].
    + rewrite Nat.eqb_refl. by rewrite E.
    + intros d0' d1' H0 H1 [= -> Hs]. split; [done |].
      destruct (Nat.eqb_spec d1' i); lia.
  - split; [lia | split; [lia | split]].
    + destruct (Nat.eqb_spec j i); [lia | done].
    + intros d0' d1' H0 H1 [= -> Hs]. split; [done |].
      destruct (Nat.eqb_spec d1' i); lia.
Qed.

(** The redraw loop accepts the first number that was not taken before. *)
Lemma redraw_repeats (draws : nat -> nat) (selected : list nat) (r : nat) :
  forall c fuel,
    r < fuel ->
    (forall t, t < r -> draws (c + t) ∈ selected) ->
    draws (c + r) ∉ selected ->
    redraw draws selected c fuel = Some (draws (c + r), S (c + r)).
Proof.
  induction r as [| r IH]; intros c [| fuel] Hfuel Hrep Hnew; try lia; simpl.
  - rewrite Nat.add_0_r in *. by rewrite decide_False.
  - rewrite decide_True
      by (specialize (Hrep 0); rewrite Nat.add_0_r in Hrep; apply Hrep; lia).
    replace (c + S r) with (S c + r) in * by lia.
    apply IH; [lia | | done].
    intros t Ht. replace (S c + t) with (c + S t) by lia. apply Hrep. lia.
Qed.

Lemma redraw_inv (draws : nat -> nat) (selected : list nat) :
  forall fuel c j c',
    redraw draws selected c fuel = Some (j, c') ->
    exists r,
      r < fuel /\ c' = S (c + r) /\ j = draws (c + r) /\ (j ∉ selected)
      /\ forall t, t < r -> draws (c + t) ∈ selected.
Proof.
  induction fuel as [| fuel IH]; intros c j c'; simpl; [done |].
  destruct (decide (draws c ∈ selected)) as [Hin | Hnew].
  - intros E. apply IH in E as (r & Hr & -> & -> & Hj & Hrep).
    exists (S r). replace (c + S r) with (S c + r) by lia.
    split; [lia | split; [done | split; [done | split; [done |]]]].
    intros [| t] Ht; [by rewrite Nat.add_0_r |].
    replace (c + S t) with (S c + t) by lia. apply Hrep. lia.
  - intros [= <- <-]. exists 0. rewrite Nat.add_0_r.
    split; [lia | split; [done | split; [done | split; [done |]]]].
    intros t Ht. lia.
Qed.

(** A large population: the first item is the one at the first number drawn,
    the second the one at the first later number that differs from it. *)
Lemma sample_two_redraw (fuel : nat) (draws : nat -> nat)
    (population : list A) (r : nat) (x y : A) :
  21 < length population ->
  r < fuel ->
  (forall c, 1 <= c <= r -> draws c = draws 0) ->
  draws (S r) <> draws 0 ->
  population !! draws 0 = Some x ->
  population !! draws (S r) = Some y ->
  sample fuel draws population 2 = Ok [x; y].
Proof.
  intros Hbig Hfuel Hrep Hnew Hx Hy.
  unfold sample. change (setsize 2) with 21.
  destruct (Nat.ltb_spec (length population) 2) as [Hlt | _]; [lia |].
  destruct (Nat.leb_spec (length population) 21) as [Hsmall | _]; [lia |].
  simpl select_set.
  rewrite (redraw_repeats draws [] 0 0 fuel);
    [| lia | intros t Ht; lia | by intros ?%elem_of_nil].
  simpl. rewrite Hx.
  rewrite (redraw_repeats draws [draws 0] r 1 fuel Hfuel).
  - simpl. by rewrite Hy.
  - intros t Ht. apply list_elem_of_singleton, Hrep. lia.
  - by intros ?%list_elem_of_singleton.
Qed.

Lemma sample_two_redraw_inv (fuel : nat) (draws : nat -> nat)
    (population : list A) (x y : A) :
  21 < length population ->
  sample fuel draws population 2 = Ok [x; y] ->
  exists r,
    r < fuel
    /\ (forall c, 1 <= c <= r -> draws c = draws 0)
    /\ draws (S r) <> draws 0
    /\ population !! draws 0 = Some x
    /\ population !! draws (S r) = Some y.
Proof.
  intros Hbig. unfold sample. change (setsize 2) with 21.
  destruct (Nat.ltb_spec (length population) 2) as [Hlt | _]; [lia |].
  destruct (Nat.leb_spec (length population) 21) as [Hsmall | _]; [lia |].
  simpl select_set.
  destruct (redraw draws [] 0 fuel) as [[j0 c1] |] eqn:E0; [| done].
  apply redraw_inv in E0 as (r0 & _ & -> & -> & _ & Hrep0).
  destruct r0 as [| r0];
    [| specialize (Hrep0 0 ltac:(lia)); by apply elem_of_nil in Hrep0].
  simpl. destruct (population !! draws 0) as [x' |] eqn:Hx; [| done].
  destruct (redraw draws [draws 0] 1 fuel) as [[j1 c2] |] eqn:E1; [| done].
  apply redraw_inv in E1 as (r & Hr & -> & -> & Hnew & Hrep).
  simpl. destruct (population !! draws (S r)) as [y' |] eqn:Hy; [| done].
  intros [= -> ->]. exists r.
  split; [done | split; [| split; [| done]]].
  - intros c Hc. specialize (Hrep (c - 1) ltac:(lia)).
    replace (1 + (c - 1)) with c in Hrep by lia.
    by apply list_elem_of_singleton in Hrep.
  - intros E. apply Hnew. simpl. rewrite E. by apply list_elem_of_singleton.
Qed.

(** With a generator that keeps its promise, what [sample] returns are the
    items at two different positions. *)
Lemma sample_two_fair (fuel : nat) (draws : nat -> nat)
    (population l : list A) :
  fair draws (length population) ->
  sample fuel draws population 2 = Ok l ->
  exists i j x y,
    i <> j /\ population !! i = Some x /\ population !! j = Some y
    /\ l = [x; y].
Proof.
  unfold fair. change (setsize 2) with 21.
  destruct (Nat.leb_spec (length population) 21) as [Hsmall | Hbig].
  - intros [H0 H1] Hs.
    destruct (positions_distinct _ _ _ H0 H1) as (Hi & Hj & Hij).
    destruct (lookup_lt_is_Some_2 _ _ Hi) as [x Hx].
    destruct (lookup_lt_is_Some_2 _ _ Hj) as [y Hy].
    rewrite (sample_two fuel draws population x y Hsmall H0 H1 Hx Hy) in Hs.
    injection Hs as <-. by eexists _, _, x, y.
  - intros _ Hs.
    assert (Hlen : exists x y, l = [x; y]).
    { revert Hs. unfold sample. change (setsize 2) with 21.
      destruct (Nat.ltb_spec (length population) 2); [done |].
      destruct (Nat.leb_spec (length population) 21); [lia |].
      simpl select_set.
      destruct (redraw draws [] 0 fuel) as [[j0 c1] |]; [| done].
      destruct (population !! j0); [| done].
      destruct (redraw draws [j0] c1 fuel) as [[j1 c2] |]; [| done].
      destruct (population !! j1); [| done].
      intros [= <-]. by eexists _, _. }
    destruct Hlen as (x & y & ->).
    apply sample_two_redraw_inv in Hs as (r & _ & _ & Hnew & Hx & Hy);
      [| done].
    exists (draws 0), (draws (S r)), x, y. by auto.
Qed.

(** Whatever the draws, what [sample] returns is as long as asked for and
    comes from the population. *)
Lemma select_from_pool (draws : nat -> nat) (n rounds : nat) :
  forall (pool : list A) (i : nat) (l : list A),
    select draws n pool i rounds = Ok l ->
    length l = rounds /\ forall x, x ∈ l -> x ∈ pool.
Proof.
  induction rounds as [| rounds IH]; intros pool i l; simpl.
  - intros [= <-]. split; [done |]. by intros x ?%elem_of_nil.
  - destruct (pool !! draws i) as [x |] eqn:Hx; [| done].
    destruct (pool !! (n - i - 1)) as [y |] eqn:Hy; [| done].
    destruct (select draws n (<[draws i:=y]> pool) (S i) rounds)
      as [rest | |] eqn:Hrest; [| done | done].
    intros [= <-]. destruct (IH _ _ _ Hrest) as [Hlen Hin].
    split; [simpl; by rewrite Hlen |].
    intros z [-> | Hz]%elem_of_cons.
    + by apply list_elem_of_lookup_2 in Hx.
    + apply Hin in Hz. apply list_elem_of_lookup in Hz as [k Hk].
      destruct (decide (k = draws i)) as [-> | Hne].
      * rewrite list_lookup_insert_eq in Hk
          by (by apply lookup_lt_Some in Hx).
        injection Hk as <-. by apply list_elem_of_lookup_2 in Hy.
      * rewrite list_lookup_insert_ne in Hk by done.
        by apply list_elem_of_lookup_2 in Hk.
Qed.

Lemma select_set_from_population (fuel : nat) (draws : nat -> nat)
    (population : list A) (rounds : nat) :
  forall (selected : list nat) (c : nat) (l : list A),
    select_set fuel draws population selected c rounds = Ok l ->
    length l = rounds /\ forall x, x ∈ l -> x ∈ population.
Proof.
  induction rounds as [| rounds IH]; intros selected c l; simpl.
  - intros [= <-]. split; [done |]. by intros x ?%elem_of_nil.
  - destruct (redraw draws selected c fuel) as [[j c'] |]; [| done].
    destruct (population !! j) as [x |] eqn:Hx; [| done].
    destruct (select_set fuel draws population (j :: selected) c' rounds)
      as [rest | |] eqn:Hrest; [| done | done].
    intros [= <-]. destruct (IH _ _ _ Hrest) as [Hlen Hin].
    split; [simpl; by rewrite Hlen |].
    intros z [-> | Hz]%elem_of_cons; [| by apply Hin].
    by apply list_elem_of_lookup_2 in Hx.
Qed.

Lemma sample_from_population (fuel : nat) (draws : nat -> nat)
    (population l : list A) (k : nat) :
  sample fuel draws population k = Ok l ->
  length l = k /\ forall x, x ∈ l -> x ∈ population.
Proof.
  unfold sample.
  destruct (length population <? k); [done |].
  destruct (length population <=? setsize k).
  - apply select_from_pool.
  - apply select_set_from_population.
Qed.

End Sample.

(** ** The manager's call, unfolded *)

Section Manager.

Import LLMManager.

(** The call, once [random.sample] has returned its two models. *)
Lemma chat_with_models_of_sample (fuel : nat) (draws : nat -> nat) (self : t)
    (a b : Model) (m p : string) (h : option History) (w : World) :
  2 <= length (models self) ->
  random.sample fuel draws (models self) 2 = Ok [a; b] ->
  chat_with_models fuel draws self m p h w
  = one_after_the_other a b m p h w.
Proof.
  intros Hn Hs. unfold chat_with_models, one_after_the_other.
  destruct (Nat.ltb_spec (length (models self)) 2) as [Hlt | _]; [lia |].
  rewrite (bind_ok _ _ w w [a; b]); [| unfold lift; by rewrite Hs].
  unfold enumerate; simpl enumerate_from. simpl for_each.
  unfold round, bind, ret, print.
  destruct (generate_response a m p h w) as [w1 [ra | e |]]; [| done | done].
  simpl.
  by destruct (generate_response b m p h _) as [w2 [rb | e |]].
Qed.

Lemma chat_with_models_too_few_run (fuel : nat) (draws : nat -> nat)
    (self : t) (m p : string) (h : option History) (w : World) :
  length (models self) < 2 ->
  chat_with_models fuel draws self m p h w
  = (w, Raise (ValueError "At least two models are required to chat.")).
Proof.
  intros Hlt. unfold chat_with_models.
  by destruct (Nat.ltb_spec (length (models self)) 2); [| lia].
Qed.

(** A call that returns has got two models from [random.sample]. *)
Lemma chat_with_models_returns (fuel : nat) (draws : nat -> nat) (self : t)
    (m p : string) (h : option History) (w w' : World)
    (r : option string * option string * option string * option string) :
  chat_with_models fuel draws self m p h w = (w', Ok r) ->
  2 <= length (models self)
  /\ exists a b, random.sample fuel draws (models self) 2 = Ok [a; b].
Proof.
  unfold chat_with_models.
  destruct (Nat.ltb_spec (length (models self)) 2) as [Hlt | Hge]; [done |].
  destruct (random.sample fuel draws (models self) 2) as [sel | e |] eqn:Hs;
    [| done | done].
  intros _. split; [done |].
  destruct (sample_from_population _ _ _ _ _ Hs) as [Hlen _].
  destruct sel as [| a [| b [| c sel]]]; try done. by exists a, b.
Qed.

(** What a return of the two calls in a row is made of. *)
Lemma one_after_the_other_ok (a b : Model) (m p : string)
    (h : option History) (w w' : World)
    (r : option string * option string * option string * option string) :
  one_after_the_other a b m p h w = (w', Ok r) ->
  exists w1 w2 response_a response_b,
    generate_response a m p h w = (w1, Ok response_a)
    /\ generate_response b m p h
         (emit (Print ("Response for " ++ class_name a ++ " was generated")) w1)
       = (w2, Ok response_b)
    /\ w' = emit (Print ("Response for " ++ class_name b ++ " was generated")) w2
    /\ r = (Some (class_name a), Some (class_name b), response_a, response_b).
Proof.
  unfold one_after_the_other, bind, print, ret.
  destruct (generate_response a m p h w) as [w1 [ra | e |]]; [| done | done].
  destruct (generate_response b m p h _) as [w2 [rb | e |]] eqn:Eb;
    [| done | done].
  intros [= <- <-]. by eexists _, _, _, _.
Qed.

(** C3: with fewer than two models the call raises the manager's own
    error ([ValueError], the specification's InsufficientModelsError) and
    leaves the world as it found it: nothing is sent to any provider,
    nothing is printed. *)
Theorem chat_with_models_too_few (fuel : nat) (draws : nat -> nat) (self : t)
    (m p : string) (h : option History) (w : World) :
  length (models self) < 2 ->
  chat_with_models fuel draws self m p h w
  = (w, Raise (ValueError "At least two models are required to chat.")).
Proof.
  intros Hlt. unfold chat_with_models.
  by destruct (Nat.ltb_spec (length (models self)) 2) as [_ | Hge]; [| lia].
Qed.

(** C4, as the code has it: when the first or the second selected model
    raises, the call raises that very exception and returns nothing; a call
    that returns gives both names and, as the two responses, what the two
    calls of [generate_response] returned, unchecked (a response can be
    [None]). *)
Theorem chat_with_models_failure (fuel : nat) (draws : nat -> nat) (self : t)
    (a b : Model) (m p : string) (h : option History) (w : World) :
  2 <= length (models self) ->
  random.sample fuel draws (models self) 2 = Ok [a; b] ->
  (forall w1 e,
      generate_response a m p h w = (w1, Raise e) ->
      chat_with_models fuel draws self m p h w = (w1, Raise e))
  /\ (forall w1 response_a w2 e,
        generate_response a m p h w = (w1, Ok response_a) ->
        generate_response b m p h
          (emit (Print ("Response for " ++ class_name a ++ " was generated"))
             w1)
        = (w2, Raise e) ->
        chat_with_models fuel draws self m p h w = (w2, Raise e))
  /\ (forall w' r,
        chat_with_models fuel draws self m p h w = (w', Ok r) ->
        exists w1 w2 response_a response_b,
          generate_response a m p h w = (w1, Ok response_a)
          /\ generate_response b m p h
               (emit
                  (Print ("Response for " ++ class_name a ++ " was generated"))
                  w1)
             = (w2, Ok response_b)
          /\ r = (Some (class_name a), Some (class_name b),
                  response_a, response_b)).
Proof.
  intros Hn Hs.
  rewrite (chat_with_models_of_sample fuel draws self a b m p h w Hn Hs).
  split; [| split].
  - intros w1 e E. unfold one_after_the_other, bind. by rewrite E.
  - intros w1 ra w2 e E1 E2. unfold one_after_the_other, bind, print.
    by rewrite E1, E2.
  - intros w' r (w1 & w2 & ra & rb & E1 & E2 & _ & ->)%one_after_the_other_ok.
    by eexists _, _, _, _.
Qed.

(** C6, as the code has it: the call takes the models at two different
    positions of the list (two different models when no model is listed
    twice), asks the first, then the second, with the same message, prompt
    and history, and returns name and response of the first as A and of the
    second as B. Which positions: in a list of at most 21 models the first
    number drawn, and the second number drawn unless that is the position
    just emptied, which stands for the last; every ordered pair of different
    positions comes from exactly one pair of numbers. In a longer list the
    first number drawn and the first later number that differs from it;
    every ordered pair of different positions comes, for every number of
    repeats, from exactly the draws that show the first position, repeat it
    and then show the second. *)
Theorem chat_with_models_selection (self : t) :
  2 <= length (models self) ->
  (forall fuel draws l,
      random.fair draws (length (models self)) ->
      random.sample fuel draws (models self) 2 = Ok l ->
      exists i j a b,
        i <> j
        /\ models self !! i = Some a /\ models self !! j = Some b
        /\ l = [a; b]
        /\ (NoDup (models self) -> a <> b)
        /\ forall (m p : string) (h : option History) (w : World),
             chat_with_models fuel draws self m p h w
             = one_after_the_other a b m p h w)
  /\ (length (models self) <= 21 ->
      forall fuel draws,
        draws 0 < length (models self) ->
        draws 1 < length (models self) - 1 ->
        exists a b,
          models self
            !! fst (random.positions (length (models self)) (draws 0) (draws 1))
            = Some a
          /\ models self
               !! snd (random.positions (length (models self))
                         (draws 0) (draws 1))
               = Some b
          /\ random.sample fuel draws (models self) 2 = Ok [a; b])
  /\ (length (models self) <= 21 ->
      forall i j,
        i < length (models self) -> j < length (models self) -> i <> j ->
        exists d0 d1,
          d0 < length (models self) /\ d1 < length (models self) - 1
          /\ random.positions (length (models self)) d0 d1 = (i, j)
          /\ forall d0' d1',
               d0' < length (models self) ->
               d1' < length (models self) - 1 ->
               random.positions (length (models self)) d0' d1' = (i, j) ->
               d0' = d0 /\ d1' = d1)
  /\ (21 < length (models self) ->
      forall fuel draws r,
        r < fuel ->
        draws 0 < length (models self) ->
        draws (S r) < length (models self) ->
        (forall c, 1 <= c <= r -> draws c = draws 0) ->
        draws (S r) <> draws 0 ->
        exists a b,
          models self !! draws 0 = Some a
          /\ models self !! draws (S r) = Some b
          /\ random.sample fuel draws (models self) 2 = Ok [a; b])
  /\ (21 < length (models self) ->
      forall fuel draws a b,
        random.sample fuel draws (models self) 2 = Ok [a; b] ->
        exists r,
          r < fuel
          /\ (forall c, 1 <= c <= r -> draws c = draws 0)
          /\ draws (S r) <> draws 0
          /\ models self !! draws 0 = Some a
          /\ models self !! draws (S r) = Some b).
Proof.
  intros Hn. split; [| split; [| split; [| split]]].
  - intros fuel draws l Hfair Hs.
    destruct (sample_two_fair fuel draws _ l Hfair Hs)
      as (i & j & a & b & Hij & Ha & Hb & ->).
    exists i, j, a, b. repeat split; try done.
    + intros Hnd ->. apply Hij. by apply (NoDup_lookup _ _ _ b Hnd).
    + intros m p h w. by apply chat_with_models_of_sample.
  - intros Hsmall fuel draws H0 H1.
    destruct (positions_distinct _ _ _ H0 H1) as (Hi & Hj & _).
    destruct (lookup_lt_is_Some_2 _ _ Hi) as [a Ha].
    destruct (lookup_lt_is_Some_2 _ _ Hj) as [b Hb].
    exists a, b. split; [done | split; [done |]]. by apply sample_two.
  - intros _ i j. apply positions_onto.
  - intros Hbig fuel draws r Hr H0 H1 Hrep Hnew.
    destruct (lookup_lt_is_Some_2 _ _ H0) as [a Ha].
    destruct (lookup_lt_is_Some_2 _ _ H1) as [b Hb].
    exists a, b. split; [done | split; [done |]].
    by apply (sample_two_redraw fuel draws _ r).
  - intros Hbig fuel draws a b Hs. by apply sample_two_redraw_inv.
Qed.

(** C2, as the code has it: the two names are the class names of the models
    at two different positions of the list, so they differ whenever no two
    models of the list have the same class name. *)
Theorem chat_with_models_names (fuel : nat) (draws : nat -> nat) (self : t)
    (m p : string) (h : option History) (w w' : World)
    (name_a name_b response_a response_b : option string) :
  2 <= length (models self) ->
  random.fair draws (length (models self)) ->
  chat_with_models fuel draws self m p h w
  = (w', Ok (name_a, name_b, response_a, response_b)) ->
  exists i j a b,
    i <> j
    /\ models self !! i = Some a /\ models self !! j = Some b
    /\ name_a = Some (class_name a) /\ name_b = Some (class_name b)
    /\ (NoDup (map class_name (models self)) -> name_a <> name_b).
Proof.
  intros Hn Hfair Hrun.
  destruct (chat_with_models_returns _ _ _ _ _ _ _ _ _ Hrun)
    as (_ & a0 & b0 & Hs).
  destruct (sample_two_fair fuel draws _ _ Hfair Hs)
    as (i & j & a & b & Hij & Ha & Hb & [= -> ->]).
  rewrite (chat_with_models_of_sample fuel draws self a b m p h w Hn Hs)
    in Hrun.
  apply one_after_the_other_ok in Hrun
    as (w1 & w2 & ra & rb & _ & _ & _ & [= -> -> _ _]).
  exists i, j, a, b. repeat split; try done.
  intros Hnd [= E]. apply Hij.
  apply (NoDup_lookup _ _ _ (class_name a) Hnd).
  - by rewrite list_lookup_fmap, Ha.
  - by rewrite list_lookup_fmap, Hb, E.
Qed.

End Manager.
(** ** One model, one request *)

Section GenerateResponse.

(** A request goes out, is recorded, and the text of the first choice of
    the answer comes back. *)
Lemma create_first_content (req : Request) (w : World) :
  (completion <- create req ;;
   choice <- index (choices completion) 0 ;;
   let response := reply.content (message choice) in
   ret response) w
  = (emit (ApiCall req) w, first_content (providers w (log w) req)).
Proof.
  unfold bind, create, index, first_content.
  destruct (providers w (log w) req) as [[[| choice rest]] | e |]; reflexivity.
Qed.

Lemma generate_response_call (T : Type) (S : LLMBase.Subclass T) (self : T)
    (m p : string) (h : option History) (w : World) :
  LLMBase.generate_response self m p h w
  = LLMBase._call_model_api self (LLMBase.prepare_messages m p h) w.
Proof. unfold LLMBase.generate_response. apply bind_ret_r. Qed.

Lemma llama_generate_response (key m p : string) (h : option History)
    (w : World) :
  let req := {| transport := GroqClient {| groq.api_key := key |};
                model := "llama-3.1-8b-instant";
                messages := LLMBase.prepare_messages m p h;
                max_tokens := 1000 |} in
  generate_response (llama key) m p h w
  = (emit (ApiCall req) w, first_content (providers w (log w) req)).
Proof.
  intros req. unfold generate_response. rewrite generate_response_call.
  apply create_first_content.
Qed.

Lemma gpt_generate_response (m p : string) (h : option History) (w : World) :
  let req := {| transport := OpenAIModule (openai_api_key w);
                model := "gpt-3.5-turbo";
                messages := LLMBase.prepare_messages m p h;
                max_tokens := 1000 |} in
  generate_response gpt m p h w
  = (emit (ApiCall req) w, first_content (providers w (log w) req)).
Proof.
  intros req. unfold generate_response. rewrite generate_response_call.
  apply (create_first_content req).
Qed.

Lemma mistral_generate_response (key m p : string) (h : option History)
    (w : World) :
  let req := {| transport := GroqClient {| groq.api_key := key |};
                model := "mixtral-8x7b-32768";
                messages := LLMBase.prepare_messages m p h;
                max_tokens := 1000 |} in
  generate_response (mistral key) m p h w
  = (emit (ApiCall req) w, first_content (providers w (log w) req)).
Proof.
  intros req. unfold generate_response. rewrite generate_response_call.
  apply create_first_content.
Qed.

(** Every request these classes send carries the same ceiling, 1000. *)
Lemma max_tokens_1000 (model : Model) (m p : string) (h : option History)
    (w : World) (req : Request) (key : string) :
  model = llama key \/ model = gpt \/ model = mistral key ->
  ApiCall req ∈ log (fst (generate_response model m p h w)) ->
  ApiCall req ∈ log w \/ max_tokens req = 1000.
Proof.
  intros [-> | [-> | ->]];
    [ pose proof (llama_generate_response key m p h w) as E
    | pose proof (gpt_generate_response m p h w) as E
    | pose proof (mistral_generate_response key m p h w) as E ];
    cbv zeta in E; rewrite E; simpl;
    rewrite elem_of_app, list_elem_of_singleton;
    (intros [? | [= ->]]; [by left | by right]).
Qed.

(** C7: [generate_response] is [_call_model_api] applied to the result of
    [prepare_messages], whatever the subclass; for the three classes that
    talk to a provider this is one request, carrying the prepared messages,
    and the text of the answer is what [generate_response] returns. *)
Theorem generate_response_composition :
  (forall (T : Type) (S : LLMBase.Subclass T) (self : T)
          (m p : string) (h : option History) (w : World),
      LLMBase.generate_response self m p h w
      = LLMBase._call_model_api self (LLMBase.prepare_messages m p h) w)
  /\ (forall (key m p : string) (h : option History) (w : World),
        let req := {| transport := GroqClient {| groq.api_key := key |};
                      model := "llama-3.1-8b-instant";
                      messages := LLMBase.prepare_messages m p h;
                      max_tokens := 1000 |} in
        generate_response (llama key) m p h w
        = (emit (ApiCall req) w, first_content (providers w (log w) req)))
  /\ (forall (m p : string) (h : option History) (w : World),
        let req := {| transport := OpenAIModule (openai_api_key w);
                      model := "gpt-3.5-turbo";
                      messages := LLMBase.prepare_messages m p h;
                      max_tokens := 1000 |} in
        generate_response gpt m p h w
        = (emit (ApiCall req) w, first_content (providers w (log w) req)))
  /\ (forall (key m p : string) (h : option History) (w : World),
        let req := {| transport := GroqClient {| groq.api_key := key |};
                      model := "mixtral-8x7b-32768";
                      messages := LLMBase.prepare_messages m p h;
                      max_tokens := 1000 |} in
        generate_response (mistral key) m p h w
        = (emit (ApiCall req) w, first_content (providers w (log w) req)))
  /\ (forall (key m p : string) (h : option History) (w : World),
        generate_response (new_model key) m p h w
        = (w, Ok (Some "New Model's response"))).
Proof.
  split; [| repeat split]; intros.
  - apply generate_response_call.
  - apply llama_generate_response.
  - apply gpt_generate_response.
  - apply mistral_generate_response.
Qed.

End GenerateResponse.

(** ** What [prepare_messages] touches *)

Section ObjectsFacts.

Import Objects.

Lemma set_heap_twice (h h' : list object) (w : World) :
  set_heap h (set_heap h' w) = set_heap h w.
Proof. reflexivity. Qed.

(** Appending one message: a new dict after everything else, and its
    reference at the end of the list. *)
Lemma append_message (h0 : list object) (first : Message)
    (rest : list Message) (msg : Message) (w : World) :
  heap w = h0 ++ layout (length h0) (first :: rest) ->
  (d <- alloc (dict_of msg) ;; list_append (S (length h0)) d) w
  = (set_heap (h0 ++ layout (length h0) (first :: rest ++ [msg])) w, Ok tt).
Proof.
  intros Hw. unfold bind, alloc, list_append. simpl heap. rewrite Hw.
  set (fresh := layout (length h0) (first :: rest)).
  assert (Hl : ((h0 ++ fresh) ++ [dict_of msg]) !! S (length h0)
               = Some (RefList (length h0 :: seq (length h0 + 2) (length rest)))).
  { rewrite <- app_assoc, lookup_app_r by lia.
    replace (S (length h0) - length h0) with 1 by lia. reflexivity. }
  rewrite Hl. rewrite set_heap_twice. do 2 f_equal.
  rewrite <- app_assoc, insert_app_r_alt by lia.
  replace (S (length h0) - length h0) with 1 by lia.
  f_equal. unfold fresh, layout. simpl.
  rewrite !length_app. simpl. rewrite length_map, map_app, seq_app. simpl.
  replace (length h0 + S (S (length rest)))
    with (length h0 + 2 + length rest) by lia.
  reflexivity.
Qed.

Lemma bind_assoc {A B C} (c : M A) (f : A -> M B) (g : B -> M C) w :
  bind (bind c f) g w = bind c (fun x => bind (f x) g) w.
Proof. unfold bind. by destruct (c w) as [w' [a | e |]]. Qed.

Lemma append_message_then {B} (k : unit -> M B) (h0 : list object)
    (first : Message) (rest : list Message) (msg : Message) (w : World) :
  heap w = h0 ++ layout (length h0) (first :: rest) ->
  (d <- alloc (dict_of msg) ;; u <- list_append (S (length h0)) d ;; k u) w
  = k tt (set_heap (h0 ++ layout (length h0) (first :: rest ++ [msg])) w).
Proof.
  intros Hw. rewrite <- bind_assoc.
  apply bind_ok. by apply append_message.
Qed.

(** One round of the loop: two dicts more, and their references at the end
    of the list. *)
Lemma turn_objects (h0 : list object) (first : Message)
    (rest : list Message) (human assistant : string) (w : World) :
  heap w = h0 ++ layout (length h0) (first :: rest) ->
  (d <- alloc (Dict [("role", "user"); ("content", human)]) ;;
   list_append (S (length h0)) d ;;
   d <- alloc (Dict [("role", "assistant"); ("content", assistant)]) ;;
   list_append (S (length h0)) d) w
  = (set_heap
       (h0 ++ layout (length h0)
                (first :: rest ++ turn_messages (human, assistant))) w,
     Ok tt).
Proof.
  intros Hw.
  etransitivity.
  { apply (append_message_then
             (fun _ =>
                d <- alloc (Dict [("role", "assistant");
                                  ("content", assistant)]) ;;
                list_append (S (length h0)) d)
             h0 first rest {| role := "user"; content := human |} w Hw). }
  etransitivity.
  { apply (append_message h0 first
             (rest ++ [ {| role := "user"; content := human |} ])
             {| role := "assistant"; content := assistant |}).
    reflexivity. }
  rewrite set_heap_twice, <- app_assoc. reflexivity.
Qed.

(** The loop over the history, started on a heap that ends with the
    objects of the messages built so far. *)
Lemma history_loop_objects (items : History) (h0 : list object)
    (first : Message) :
  forall (rest : list Message) (w : World),
    heap w = h0 ++ layout (length h0) (first :: rest) ->
    for_each items
      (fun _ '(human, assistant) =>
         d <- alloc (Dict [("role", "user"); ("content", human)]) ;;
         list_append (S (length h0)) d ;;
         d <- alloc (Dict [("role", "assistant"); ("content", assistant)]) ;;
         list_append (S (length h0)) d)
      tt w
    = (set_heap
         (h0 ++ layout (length h0)
                  (first :: rest ++ flat_map turn_messages items)) w,
       Ok tt).
Proof.
  induction items as [| [human assistant] items IH]; intros rest w Hw.
  - unfold for_each, ret, flat_map. rewrite app_nil_r, <- Hw. by destruct w.
  - simpl for_each.
    rewrite (bind_ok _ _ w _ tt (turn_objects h0 first rest human assistant w Hw)).
    rewrite (IH (rest ++ turn_messages (human, assistant))); [| reflexivity].
    rewrite set_heap_twice. simpl flat_map. by rewrite <- app_assoc.
Qed.

Lemma bind_alloc {B} (o : object) (k : loc -> M B) (w : World) :
  bind (alloc o) k w = k (length (heap w)) (set_heap (heap w ++ [o]) w).
Proof. reflexivity. Qed.

Lemma load_old (l : loc) (o : object) (fresh : list object) (w : World) :
  heap w !! l = Some o ->
  load l (set_heap (heap w ++ fresh) w) = (set_heap (heap w ++ fresh) w, Ok o).
Proof.
  intros Hl. unfold load. simpl heap.
  by rewrite (lookup_app_l_Some _ _ _ _ Hl).
Qed.

(** The last statements: the new user message is appended and the list is
    returned. *)
Lemma last_message (h0 : list object) (first : Message)
    (rest : list Message) (message : string) (w : World) :
  heap w = h0 ++ layout (length h0) (first :: rest) ->
  (d <- alloc (Dict [("role", "user"); ("content", message)]) ;;
   list_append (S (length h0)) d ;;
   ret (S (length h0))) w
  = (set_heap
       (h0 ++ layout (length h0)
                (first :: rest ++ [ {| role := "user"; content := message |} ]))
       w,
     Ok (S (length h0))).
Proof.
  intros Hw.
  apply (append_message_then (fun _ => ret (S (length h0)))
           h0 first rest {| role := "user"; content := message |} w Hw).
Qed.

(** The whole method, when [history] is absent or a list of tuples: the
    heap grows by the objects of the transcript, and nothing else
    changes. *)
Lemma prepare_messages_objects (self : loc) (m p : string)
    (history : option loc) (hv : option History) (w : World) :
  read_history (heap w) history = Some hv ->
  prepare_messages self m p history w
  = (set_heap
       (heap w ++ layout (length (heap w)) (LLMBase.prepare_messages m p hv))
       w,
     Ok (S (length (heap w)))).
Proof.
  intros Hh. unfold prepare_messages.
  rewrite !bind_alloc. simpl heap.
  replace (length (heap w ++ [Dict [("role", "system"); ("content", p)]]))
    with (S (length (heap w))) by (rewrite length_app; simpl; lia).
  rewrite set_heap_twice, <- app_assoc. simpl app.
  set (sys := {| role := "system"; content := p |}).
  set (w2 := set_heap (heap w ++ _) w).
  assert (Hw2 : heap w2 = heap w ++ layout (length (heap w)) [sys])
    by reflexivity.
  assert (Hskip :
    (ret tt ;;
     d <- alloc (Dict [("role", "user"); ("content", m)]) ;;
     list_append (S (length (heap w))) d ;;
     ret (S (length (heap w)))) w2
    = (set_heap
         (heap w ++ layout (length (heap w))
                      [sys; {| role := "user"; content := m |}]) w,
       Ok (S (length (heap w))))).
  { rewrite bind_ret_l.
    by rewrite (last_message (heap w) sys [] m w2 Hw2). }
  destruct history as [l |]; simpl in Hh.
  - destruct (heap w !! l) as [[items | | |] |] eqn:Hl; try done.
    injection Hh as <-.
    assert (Hload : load l w2 = (w2, Ok (TupleList items)))
      by apply (load_old l _ _ w Hl).
    assert (Htruth :
      truth (Some l) w2 = (w2, Ok (0 <? length items))).
    { unfold truth. by rewrite (bind_ok _ _ w2 w2 _ Hload). }
    assert (Hpairs : pairs (Some l) w2 = (w2, Ok items)).
    { unfold pairs. by rewrite (bind_ok _ _ w2 w2 _ Hload). }
    rewrite (bind_ok _ _ w2 w2 _ Htruth).
    destruct items as [| t items]; [exact Hskip |].
    change (0 <? length (t :: items)) with true. cbv iota.
    rewrite prepare_messages_transcript. unfold transcript, turns.
    erewrite bind_ok.
    2:{ erewrite bind_ok by exact Hpairs.
        apply (history_loop_objects (t :: items) (heap w) sys [] w2 Hw2). }
    rewrite (last_message (heap w) sys ([] ++ flat_map turn_messages (t :: items)) m);
      [| reflexivity].
    by rewrite set_heap_twice.
  - injection Hh as <-. unfold truth. rewrite bind_ret_l. exact Hskip.
Qed.

(** Reading the list back gives the messages. *)
Lemma read_messages_layout (h0 : list object) (first : Message)
    (rest : list Message) :
  read_messages (h0 ++ layout (length h0) (first :: rest)) (S (length h0))
  = Some (first :: rest).
Proof.
  unfold read_messages, layout.
  rewrite lookup_app_r by lia.
  replace (S (length h0) - length h0) with 1 by lia. simpl lookup.
  apply mapM_Some_2, Forall2_cons. split.
  - unfold read_message. rewrite lookup_app_r by lia.
    rewrite Nat.sub_diag. by destruct first.
  - apply Forall2_same_length_lookup_2; [by rewrite length_seq |].
    intros i l msg [-> Hi]%lookup_seq Hmsg.
    unfold read_message. rewrite lookup_app_r by lia.
    replace (length h0 + 2 + i - length h0) with (S (S i)) by lia.
    simpl lookup. rewrite list_lookup_fmap, Hmsg. by destruct msg.
Qed.

(** Whatever [history] is, the heap only grows: the objects that were there
    are there unchanged, and nothing else of the world is touched. *)
Lemma prepare_messages_grows (self : loc) (m p : string)
    (history : option loc) (w : World) :
  exists fresh,
    fst (prepare_messages self m p history w) = set_heap (heap w ++ fresh) w.
Proof.
  destruct (read_history (heap w) history) as [hv |] eqn:Hh.
  { rewrite (prepare_messages_objects self m p history hv w Hh). by eexists. }
  destruct history as [l |]; [| done]. simpl in Hh.
  unfold prepare_messages.
  rewrite !bind_alloc. simpl heap.
  replace (length (heap w ++ [Dict [("role", "system"); ("content", p)]]))
    with (S (length (heap w))) by (rewrite length_app; simpl; lia).
  rewrite set_heap_twice, <- app_assoc. simpl app.
  set (sys := {| role := "system"; content := p |}).
  set (w2 := set_heap (heap w ++ _) w).
  assert (Hw2 : heap w2 = heap w ++ layout (length (heap w)) [sys])
    by reflexivity.
  assert (Hpairs : exists e, pairs (Some l) w2 = (w2, Raise e)).
  { unfold pairs, bind, load. rewrite Hw2.
    destruct ((heap w ++ layout (length (heap w)) [sys]) !! l)
      as [[items | | |] |] eqn:Hl; try by eexists.
    apply lookup_app_Some in Hl as [Hl | [_ Hl]].
    - by rewrite Hl in Hh.
    - by destruct (l - length (heap w)) as [| [| k]]. }
  destruct Hpairs as [e Hpairs].
  assert (Htruth :
    truth (Some l) w2 = (w2, Ok true) \/ truth (Some l) w2 = (w2, Ok false)
    \/ exists e', truth (Some l) w2 = (w2, Raise e')).
  { unfold truth, bind, load.
    destruct (heap w2 !! l) as [[items | entries | items |] |];
      try destruct (0 <? length _); eauto. }
  destruct Htruth as [Ht | [Ht | [e' Ht]]].
  - rewrite (bind_ok _ _ w2 w2 _ Ht). cbv iota.
    erewrite bind_raise by (erewrite bind_raise by exact Hpairs; reflexivity).
    by eexists.
  - rewrite (bind_ok _ _ w2 w2 _ Ht). cbv iota.
    rewrite bind_ret_l, (last_message (heap w) sys [] m w2 Hw2).
    by eexists.
  - rewrite (bind_raise _ _ w2 w2 _ Ht). by eexists.
Qed.

End ObjectsFacts.

(** ** [prepare_messages] is pure *)

Section Purity.

Import Objects.

(** C9: a call of [prepare_messages] changes nothing that existed before it:
    the provider log, the key of the [openai] module and every object of the
    heap (the instance and the history list among them) are as they were,
    and the heap has only grown by new objects; and two calls with the same
    message, prompt and history, in whatever worlds and on whatever
    instances, return lists that hold the same messages, the ones
    [LLMBase.prepare_messages] computes. *)
Theorem prepare_messages_pure :
  (forall (self : loc) (m p : string) (history : option loc) (w : World),
      let w' := fst (prepare_messages self m p history w) in
      log w' = log w
      /\ openai_api_key w' = openai_api_key w
      /\ providers w' = providers w
      /\ (exists fresh, heap w' = heap w ++ fresh)
      /\ forall l o, heap w !! l = Some o -> heap w' !! l = Some o)
  /\ (forall (self1 self2 : loc) (m p : string)
             (history1 history2 : option loc) (hv : option History)
             (w1 w2 : World),
        read_history (heap w1) history1 = Some hv ->
        read_history (heap w2) history2 = Some hv ->
        exists r1 r2 msgs,
          snd (prepare_messages self1 m p history1 w1) = Ok r1
          /\ snd (prepare_messages self2 m p history2 w2) = Ok r2
          /\ read_messages
               (heap (fst (prepare_messages self1 m p history1 w1))) r1
             = Some msgs
          /\ read_messages
               (heap (fst (prepare_messages self2 m p history2 w2))) r2
             = Some msgs
          /\ msgs = LLMBase.prepare_messages m p hv).
Proof.
  split.
  - intros self m p history w w'.
    destruct (prepare_messages_grows self m p history w) as [fresh E].
    subst w'. rewrite E. simpl. repeat split; [by eexists |].
    intros l o Hl. by apply lookup_app_l_Some.
  - intros self1 self2 m p history1 history2 hv w1 w2 H1 H2.
    rewrite (prepare_messages_objects self1 m p history1 hv w1 H1).
    rewrite (prepare_messages_objects self2 m p history2 hv w2 H2).
    simpl. eexists _, _, _. repeat split.
    + rewrite prepare_messages_transcript. apply read_messages_layout.
    + rewrite prepare_messages_transcript. apply read_messages_layout.
Qed.

End Purity.


(** ** The theorems at work *)

(** [random.sample] at work, on lists of positions: a list of 21 is sampled
    by the pool loop, where a second 5 stands for the last position; a list
    of 22 by the redraw loop, where a second 5 is drawn again; and a
    generator that says 5 for ever keeps that loop going. *)
Example sample_small_and_large :
  random.sample 3 five_five_nine (seq 0 21) 2 = Ok [5; 20]
  /\ random.sample 3 five_five_nine (seq 0 22) 2 = Ok [5; 9]
  /\ random.sample 3 (fun _ => 5) (seq 0 22) 2 = Unfinished.
Proof. repeat split; reflexivity. Qed.

(** C2, as the specification has it, fails: two models of one class give the
    same name twice. *)
Lemma chat_with_models_same_name :
  snd (LLMManager.chat_with_models 1 zeros one_class "hi" "sys" None
         (online []))
  = Ok (Some "LlamaModel", Some "LlamaModel",
        Some "llama-3.1-8b-instant", Some "llama-3.1-8b-instant")
  /\ ~ (forall (fuel : nat) (draws : nat -> nat) (self : LLMManager.t)
               (m p : string) (h : option History) (w w' : World)
               (name_a name_b : string)
               (response_a response_b : option string),
           2 <= length (LLMManager.models self) ->
           random.fair draws (length (LLMManager.models self)) ->
           LLMManager.chat_with_models fuel draws self m p h w
           = (w', Ok (Some name_a, Some name_b, response_a, response_b)) ->
           name_a <> name_b).
Proof.
  split; [reflexivity |].
  intros H.
  apply (H 1 zeros one_class "hi" "sys" None (online [])
           (fst (LLMManager.chat_with_models 1 zeros one_class "hi" "sys" None
                   (online [])))
           "LlamaModel" "LlamaModel"
           (Some "llama-3.1-8b-instant") (Some "llama-3.1-8b-instant"));
    [cbv; lia | cbv; lia | reflexivity | reflexivity].
Qed.

(** One call on two models of two classes: what is sent and printed, in the
    order it happens, and what comes back. *)
Example chat_with_models_two_classes :
  let out :=
    LLMManager.chat_with_models 1 zeros two_classes "hi" "sys" None
      (online []) in
  log (fst out)
  = [ ApiCall {| transport := GroqClient {| groq.api_key := "gsk" |};
                 model := "llama-3.1-8b-instant";
                 messages := [ {| role := "system"; content := "sys" |};
                               {| role := "user"; content := "hi" |} ];
                 max_tokens := 1000 |};
      Print "Response for LlamaModel was generated";
      ApiCall {| transport := OpenAIModule (Some "sk");
                 model := "gpt-3.5-turbo";
                 messages := [ {| role := "system"; content := "sys" |};
                               {| role := "user"; content := "hi" |} ];
                 max_tokens := 1000 |};
      Print "Response for GPTModel was generated" ]
  /\ snd out
     = Ok (Some "LlamaModel", Some "GPTModel",
           Some "llama-3.1-8b-instant", Some "gpt-3.5-turbo").
Proof. split; reflexivity. Qed.

Lemma chat_with_models_names_example :
  2 <= length (LLMManager.models two_classes)
  /\ random.fair zeros (length (LLMManager.models two_classes))
  /\ exists i j a b,
       i <> j
       /\ LLMManager.models two_classes !! i = Some a
       /\ LLMManager.models two_classes !! j = Some b
       /\ Some "LlamaModel" = Some (class_name a)
       /\ Some "GPTModel" = Some (class_name b)
       /\ (NoDup (map class_name (LLMManager.models two_classes)) ->
           Some "LlamaModel" <> Some "GPTModel").
Proof.
  split; [cbv; lia | split; [cbv; lia |]].
  apply (chat_with_models_names 1 zeros two_classes "hi" "sys" None (online [])
           (fst (LLMManager.chat_with_models 1 zeros two_classes "hi" "sys"
                   None (online [])))
           (Some "LlamaModel") (Some "GPTModel")
           (Some "llama-3.1-8b-instant") (Some "gpt-3.5-turbo"));
    [cbv; lia | cbv; lia | reflexivity].
Defined.

Lemma chat_with_models_too_few_example :
  length (LLMManager.models one_model) < 2
  /\ LLMManager.chat_with_models 1 zeros one_model "hi" "sys" None offline
     = (offline, Raise (ValueError "At least two models are required to chat.")).
Proof.
  split; [cbv; lia |].
  apply (chat_with_models_too_few 1 zeros one_model "hi" "sys" None offline).
  cbv; lia.
Defined.

(** C4, as the specification has it, fails: providers that answer with a
    null content make the call return, with both responses [None]. *)
Lemma chat_with_models_null_response :
  snd (LLMManager.chat_with_models 1 zeros two_classes "hi" "sys" None
         wordless)
  = Ok (Some "LlamaModel", Some "GPTModel", None, None)
  /\ ~ (forall (fuel : nat) (draws : nat -> nat) (self : LLMManager.t)
               (m p : string) (h : option History) (w w' : World)
               (name_a name_b response_a response_b : option string),
           2 <= length (LLMManager.models self) ->
           random.fair draws (length (LLMManager.models self)) ->
           LLMManager.chat_with_models fuel draws self m p h w
           = (w', Ok (name_a, name_b, response_a, response_b)) ->
           is_Some name_a /\ is_Some name_b
           /\ is_Some response_a /\ is_Some response_b).
Proof.
  split; [reflexivity |].
  intros H.
  destruct (H 1 zeros two_classes "hi" "sys" None wordless
              (fst (LLMManager.chat_with_models 1 zeros two_classes "hi" "sys"
                      None wordless))
              (Some "LlamaModel") (Some "GPTModel") None None)
    as (_ & _ & [response E] & _);
    [cbv; lia | cbv; lia | reflexivity | discriminate E].
Qed.

Lemma chat_with_models_failure_example :
  2 <= length (LLMManager.models two_classes)
  /\ random.sample 1 zeros (LLMManager.models two_classes) 2
     = Ok [llama "gsk"; gpt]
  /\ snd (LLMManager.chat_with_models 1 zeros two_classes "hi" "sys" None
            offline)
     = Raise (APIError "connection refused").
Proof.
  split; [cbv; lia | split; [reflexivity |]].
  destruct (chat_with_models_failure 1 zeros two_classes (llama "gsk") gpt
              "hi" "sys" None offline) as (Hfirst & _ & _);
    [cbv; lia | reflexivity |].
  rewrite (Hfirst (fst (generate_response (llama "gsk") "hi" "sys" None offline))
             (APIError "connection refused"));
    reflexivity.
Defined.

(** C6, as the specification has it, fails: of a model that is listed twice
    the call takes both entries, and compares the model with itself. *)
Lemma chat_with_models_same_model :
  random.sample 1 zeros (LLMManager.models same_twice) 2
  = Ok [llama "gsk"; llama "gsk"]
  /\ ~ (forall (fuel : nat) (draws : nat -> nat) (self : LLMManager.t)
               (a b : Model),
           2 <= length (LLMManager.models self) ->
           random.fair draws (length (LLMManager.models self)) ->
           random.sample fuel draws (LLMManager.models self) 2 = Ok [a; b] ->
           a <> b).
Proof.
  split; [reflexivity |].
  intros H.
  apply (H 1 zeros same_twice (llama "gsk") (llama "gsk"));
    [cbv; lia | cbv; lia | reflexivity | reflexivity].
Qed.

Lemma chat_with_models_selection_example :
  2 <= length (LLMManager.models two_classes)
  /\ random.fair zeros (length (LLMManager.models two_classes))
  /\ random.sample 1 zeros (LLMManager.models two_classes) 2
     = Ok [llama "gsk"; gpt]
  /\ forall (m p : string) (h : option History) (w : World),
       LLMManager.chat_with_models 1 zeros two_classes m p h w
       = one_after_the_other (llama "gsk") gpt m p h w.
Proof.
  assert (H : 2 <= length (LLMManager.models two_classes)) by (cbv; lia).
  assert (Hfair : random.fair zeros (length (LLMManager.models two_classes)))
    by (cbv; lia).
  split; [exact H | split; [exact Hfair | split; [reflexivity |]]].
  destruct (chat_with_models_selection two_classes H) as [Hsel _].
  destruct (Hsel 1 zeros [llama "gsk"; gpt] Hfair eq_refl)
    as (i & j & a & b & _ & _ & _ & E & _ & Hrun).
  injection E as <- <-. exact Hrun.
Defined.

Lemma prepare_messages_pure_example :
  let h := [("h1", "a1")] in
  let w1 := online [TupleList h] in
  let w2 := online [Instance "GPTModel" []; TupleList h] in
  Objects.read_history (heap w1) (Some 0) = Some (Some h)
  /\ Objects.read_history (heap w2) (Some 1) = Some (Some h)
  /\ exists r1 r2 msgs,
       snd (Objects.prepare_messages 5 "hi" "sys" (Some 0) w1) = Ok r1
       /\ snd (Objects.prepare_messages 0 "hi" "sys" (Some 1) w2) = Ok r2
       /\ Objects.read_messages
            (heap (fst (Objects.prepare_messages 5 "hi" "sys" (Some 0) w1))) r1
          = Some msgs
       /\ Objects.read_messages
            (heap (fst (Objects.prepare_messages 0 "hi" "sys" (Some 1) w2))) r2
          = Some msgs
       /\ msgs = LLMBase.prepare_messages "hi" "sys" (Some h).
Proof.
  intros h w1 w2.
  split; [reflexivity | split; [reflexivity |]].
  apply (proj2 prepare_messages_pure 5 0 "hi" "sys" (Some 0) (Some 1)
           (Some h) w1 w2); reflexivity.
Defined.
(** ** More about the transcript *)

Section Transcript.

Import LLMBase.

Lemma turns_messages_injective (a b : History) (m m' : string) :
  flat_map turn_messages a ++ [ {| role := "user"; content := m |} ]
  = flat_map turn_messages b ++ [ {| role := "user"; content := m' |} ] ->
  a = b /\ m = m'.
Proof.
  revert b. induction a as [| [u v] a IH]; intros [| [u' v'] b]; simpl.
  - by intros [= ->].
  - intros E. exfalso. by inversion E.
  - intros E. exfalso. by inversion E.
  - intros [= -> -> E]. destruct (IH b E) as [-> ->]. done.
Qed.

(** The roles of a transcript: "system" once, at the head, then "user" and
    "assistant" in turn, and "user" at the end; two messages for each past
    turn and two more. *)
Theorem prepare_messages_roles (m p : string) (history : option History) :
  map role (prepare_messages m p history)
  = "system"
      :: flat_map (fun _ => ["user"; "assistant"]) (turns history) ++ ["user"]
  /\ length (prepare_messages m p history) = 2 * length (turns history) + 2.
Proof.
  rewrite prepare_messages_transcript. unfold transcript.
  generalize (turns history) as h. intros h. split.
  - simpl. f_equal. rewrite map_app. simpl. f_equal.
    induction h as [| t h IH]; [done |]. simpl. by rewrite IH.
  - simpl. rewrite length_app. simpl.
    induction h as [| t h IH]; [done |]. simpl in *. lia.
Qed.

(** Nothing is lost in a transcript: two calls that return the same list
    were given the same message, the same prompt and the same turns. *)
Theorem prepare_messages_injective (m p m' p' : string)
    (history history' : option History) :
  prepare_messages m p history = prepare_messages m' p' history' ->
  m = m' /\ p = p' /\ turns history = turns history'.
Proof.
  rewrite !prepare_messages_transcript. unfold transcript.
  intros [= -> E]. by destruct (turns_messages_injective _ _ _ _ E) as [-> ->].
Qed.

(** A conversation goes on: once message [m] has been answered with [a],
    the transcript for the next message is the transcript that was sent for
    [m], then the answer, then the next message. *)
Theorem prepare_messages_next_turn (m a next p : string)
    (history : option History) :
  prepare_messages next p (Some (turns history ++ [(m, a)]))
  = prepare_messages m p history
      ++ [ {| role := "assistant"; content := a |};
           {| role := "user"; content := next |} ].
Proof.
  rewrite !prepare_messages_transcript. unfold transcript, turns at 1.
  rewrite flat_map_app. simpl. by rewrite <- !app_assoc.
Qed.

End Transcript.

(** ** Keys and answers *)

Section Providers.

(** Where the key of a request comes from. A [GPTModel] keeps no key: its
    constructor writes the key into the [openai] module, so after a second
    [GPTModel] has been made, the first one sends the key of the second. A
    [LlamaModel] or a [MistralModel] sends the key it was made with, whatever
    was made after it. *)
Theorem api_keys (k1 k2 m p : string) (h : option History) (w : World) :
  (exists req,
      (first <- GPTModel.__init__ k1 ;;
       second <- GPTModel.__init__ k2 ;;
       LLMBase.generate_response first m p h) w
      = (emit (ApiCall req) (set_openai_api_key k2 w),
         first_content (providers w (log w) req))
      /\ transport req = OpenAIModule (Some k2))
  /\ (exists req,
        (let first := LlamaModel.__init__ k1 in
         let second := LlamaModel.__init__ k2 in
         LLMBase.generate_response first m p h) w
        = (emit (ApiCall req) w, first_content (providers w (log w) req))
        /\ transport req = GroqClient {| groq.api_key := k1 |})
  /\ (exists req,
        (let first := MistralModel.__init__ k1 in
         let second := MistralModel.__init__ k2 in
         LLMBase.generate_response first m p h) w
        = (emit (ApiCall req) w, first_content (providers w (log w) req))
        /\ transport req = GroqClient {| groq.api_key := k1 |}).
Proof.
  split; [| split].
  - eexists. split.
    + unfold GPTModel.__init__. unfold bind at 1 2.
      rewrite generate_response_call.
      apply (create_first_content
               {| transport := OpenAIModule (Some k2);
                  model := "gpt-3.5-turbo";
                  messages := LLMBase.prepare_messages m p h;
                  max_tokens := 1000 |}
               (set_openai_api_key k2 (set_openai_api_key k1 w))).
    + reflexivity.
  - eexists. split; [apply (llama_generate_response k1 m p h w) | reflexivity].
  - eexists. split; [apply (mistral_generate_response k1 m p h w) | reflexivity].
Qed.

(** A completion without any choice: the request has gone out, and reading
    [choices[0]] raises [IndexError]. *)
Theorem no_choice_index_error (model : Model) (key m p : string)
    (h : option History) (w : World) :
  model = llama key \/ model = gpt \/ model = mistral key ->
  (forall req, providers w (log w) req = Ok {| choices := [] |}) ->
  exists req,
    generate_response model m p h w
    = (emit (ApiCall req) w, Raise (IndexError "list index out of range")).
Proof.
  intros [-> | [-> | ->]] Hmute; eexists;
    [ rewrite llama_generate_response
    | rewrite gpt_generate_response
    | rewrite mistral_generate_response ];
    cbv zeta; rewrite Hmute; reflexivity.
Qed.

End Providers.

(** ** What a call of the manager leaves behind *)

Section Effects.

Import LLMManager.

Lemma add_log_nil (w : World) : add_log [] w = w.
Proof. destruct w. unfold add_log. simpl. by rewrite app_nil_r. Qed.

Lemma add_log_add_log (evs evs' : list Event) (w : World) :
  add_log evs' (add_log evs w) = add_log (evs ++ evs') w.
Proof. unfold add_log. simpl. by rewrite app_assoc. Qed.

Lemma emit_add_log (e : Event) (w : World) : emit e w = add_log [e] w.
Proof. reflexivity. Qed.

(** One model of the shipped classes, asked once: at most one request and no
    line of output, and the request carries the transcript and the ceiling. *)
Lemma shipped_generate_response (model : Model) (m p : string)
    (h : option History) (w : World) :
  shipped model ->
  exists evs r,
    generate_response model m p h w = (add_log evs w, r)
    /\ length (requests evs) <= 1
    /\ printed evs = []
    /\ forall req, req ∈ requests evs ->
         messages req = LLMBase.prepare_messages m p h
         /\ max_tokens req = 1000.
Proof.
  intros [[key ->] | [-> | [[key ->] | [key ->]]]].
  - pose proof (llama_generate_response key m p h w) as E. cbv zeta in E.
    rewrite E, emit_add_log. eexists _, _. split; [done |]. simpl.
    split; [lia | split; [done |]].
    by intros req ->%list_elem_of_singleton.
  - pose proof (gpt_generate_response m p h w) as E. cbv zeta in E.
    rewrite E, emit_add_log. eexists _, _. split; [done |]. simpl.
    split; [lia | split; [done |]].
    by intros req ->%list_elem_of_singleton.
  - pose proof (mistral_generate_response key m p h w) as E. cbv zeta in E.
    rewrite E, emit_add_log. eexists _, _. split; [done |]. simpl.
    split; [lia | split; [done |]].
    by intros req ->%list_elem_of_singleton.
  - exists [], (Ok (Some "New Model's response")). rewrite add_log_nil.
    simpl. split; [done | split; [lia | split; [done |]]].
    by intros req ?%elem_of_nil.
Qed.

Lemma requests_app (evs evs' : list Event) :
  requests (evs ++ evs') = requests evs ++ requests evs'.
Proof. apply flat_map_app. Qed.

Lemma printed_app (evs evs' : list Event) :
  printed (evs ++ evs') = printed evs ++ printed evs'.
Proof. apply flat_map_app. Qed.

(** A call on models of the shipped classes changes nothing but the log, and
    adds little to it: at most two requests, each with the transcript of this
    very message, prompt and history and with the ceiling of 1000, and at most
    two lines of output, each naming the class of a model of the list. The
    key of the [openai] module, the heap and the manager's list stay as they
    are, whatever the draws and whether the call returns or raises. *)
Theorem chat_with_models_effects (fuel : nat) (draws : nat -> nat) (self : t)
    (m p : string) (h : option History) (w : World) :
  Forall shipped (models self) ->
  exists evs,
    fst (chat_with_models fuel draws self m p h w) = add_log evs w
    /\ length (requests evs) <= 2
    /\ length (printed evs) <= 2
    /\ (forall req, req ∈ requests evs ->
          messages req = LLMBase.prepare_messages m p h
          /\ max_tokens req = 1000)
    /\ (forall line, line ∈ printed evs ->
          exists model,
            model ∈ models self
            /\ line = ("Response for " ++ class_name model
                        ++ " was generated")%string).
Proof.
  intros Hshipped.
  assert (Hnone : forall r,
    chat_with_models fuel draws self m p h w = (w, r) ->
    exists evs,
      fst (chat_with_models fuel draws self m p h w) = add_log evs w
      /\ length (requests evs) <= 2
      /\ length (printed evs) <= 2
      /\ (forall req, req ∈ requests evs ->
            messages req = LLMBase.prepare_messages m p h
            /\ max_tokens req = 1000)
      /\ (forall line, line ∈ printed evs ->
            exists model,
              model ∈ models self
              /\ line = ("Response for " ++ class_name model
                        ++ " was generated")%string)).
  { intros r ->. exists []. rewrite add_log_nil. simpl.
    split; [done | split; [lia | split; [lia | split]]];
      by intros ? ?%elem_of_nil. }
  destruct (Nat.ltb_spec (length (models self)) 2) as [Hlt | Hge].
  { eapply Hnone. by apply chat_with_models_too_few_run. }
  destruct (random.sample fuel draws (models self) 2) as [sel | e |] eqn:Hs.
  2:{ eapply Hnone. unfold chat_with_models.
      destruct (Nat.ltb_spec (length (models self)) 2); [lia |].
      apply bind_raise. unfold lift. by rewrite Hs. }
  2:{ eapply Hnone. unfold chat_with_models.
      destruct (Nat.ltb_spec (length (models self)) 2); [lia |].
      apply bind_unfinished. unfold lift. by rewrite Hs. }
  assert (Hsel : length sel = 2 /\ forall x, x ∈ sel -> x ∈ models self)
    by apply (sample_from_population _ _ _ _ _ Hs).
  destruct Hsel as [Hlen Hin].
  destruct sel as [| a [| b [| c sel]]]; try done. clear Hlen Hnone.
  assert (Ha : a ∈ models self) by (apply Hin, elem_of_cons; by left).
  assert (Hb : b ∈ models self)
    by (apply Hin, elem_of_cons; right; apply elem_of_cons; by left).
  rewrite Forall_forall in Hshipped.
  rewrite (chat_with_models_of_sample fuel draws self a b m p h w Hge Hs).
  unfold one_after_the_other, bind, print, ret.
  destruct (shipped_generate_response a m p h w (Hshipped a Ha))
    as (evA & rA & -> & HlenA & HprA & HreqA).
  destruct rA as [response_a | e |].
  2,3: (exists evA; simpl; rewrite HprA; simpl;
        split; [done | split; [lia | split; [lia | split; [done |]]]];
        by intros ? ?%elem_of_nil).
  rewrite emit_add_log, add_log_add_log.
  destruct (shipped_generate_response b m p h
              (add_log
                 (evA ++ [Print ("Response for " ++ class_name a
                                 ++ " was generated")]) w)
              (Hshipped b Hb))
    as (evB & rB & -> & HlenB & HprB & HreqB).
  rewrite add_log_add_log.
  destruct rB as [response_b | e |].
  1:{ rewrite emit_add_log, add_log_add_log. eexists. split; [done |].
      rewrite !requests_app, !printed_app, HprA, HprB. simpl.
      rewrite !app_nil_r, length_app.
      split; [lia | split; [lia | split]].
      - intros req [? | ?]%elem_of_app; auto.
      - intros line [-> | ->%list_elem_of_singleton]%elem_of_cons; eauto. }
  all: eexists; (split; [done |]);
    rewrite !requests_app, !printed_app, HprA, HprB; simpl;
    rewrite !app_nil_r, length_app;
    (split; [lia | split; [lia | split]]);
    [ intros req [? | ?]%elem_of_app; auto
    | intros line ->%list_elem_of_singleton; eauto ].
Qed.

(** With just two models both are asked every time; the first draw alone
    decides which of them comes first. *)
Theorem chat_with_models_two_models (fuel : nat) (draws : nat -> nat)
    (m0 m1 : Model) (m p : string) (h : option History) (w w' : World)
    (name_a name_b response_a response_b : option string) :
  draws 0 < 2 ->
  draws 1 < 1 ->
  chat_with_models fuel draws (__init__ [m0; m1]) m p h w
  = (w', Ok (name_a, name_b, response_a, response_b)) ->
  (draws 0 = 0
   /\ name_a = Some (class_name m0) /\ name_b = Some (class_name m1))
  \/ (draws 0 = 1
      /\ name_a = Some (class_name m1) /\ name_b = Some (class_name m0)).
Proof.
  intros H0 H1.
  assert (E1 : draws 1 = 0) by lia.
  destruct (draws 0) as [| [| k]] eqn:E0; [| | lia].
  - rewrite (chat_with_models_of_sample fuel draws (__init__ [m0; m1]) m0 m1);
      [| simpl; lia
       | apply sample_two; simpl; rewrite ?E0, ?E1; (lia || reflexivity) ].
    intros (w1 & w2 & ra & rb & _ & _ & _ & [= -> -> _ _])%one_after_the_other_ok.
    by left.
  - rewrite (chat_with_models_of_sample fuel draws (__init__ [m0; m1]) m1 m0);
      [| simpl; lia
       | apply sample_two; simpl; rewrite ?E0, ?E1; (lia || reflexivity) ].
    intros (w1 & w2 & ra & rb & _ & _ & _ & [= -> -> _ _])%one_after_the_other_ok.
    by right.
Qed.

End Effects.

(** ** Every call makes a list of its own *)

Section Fresh.

Import Objects.

Lemma read_messages_grow (h ext : list object) (r : loc)
    (msgs : list Message) :
  read_messages h r = Some msgs -> read_messages (h ++ ext) r = Some msgs.
Proof.
  unfold read_messages.
  destruct (h !! r) as [[| | items |] |] eqn:Hr; try done.
  rewrite (lookup_app_l_Some _ _ _ _ Hr).
  intros Hm%mapM_Some_1. apply mapM_Some_2.
  eapply Forall2_impl; [exact Hm |].
  intros l msg. unfold read_message.
  destruct (h !! l) eqn:Hl; [| done].
  by rewrite (lookup_app_l_Some _ _ _ _ Hl).
Qed.

Lemma read_history_grow (h ext : list object) (history : option loc)
    (hv : option History) :
  read_history h history = Some hv -> read_history (h ++ ext) history = Some hv.
Proof.
  destruct history as [l |]; [| done]. simpl.
  destruct (h !! l) eqn:Hl; [| done].
  by rewrite (lookup_app_l_Some _ _ _ _ Hl).
Qed.

Lemma read_prepared (h0 : list object) (m p : string) (hv : option History) :
  read_messages (h0 ++ layout (length h0) (LLMBase.prepare_messages m p hv))
    (S (length h0))
  = Some (LLMBase.prepare_messages m p hv).
Proof. rewrite prepare_messages_transcript. apply read_messages_layout. Qed.

(** Two calls, one after the other: each returns a list that did not exist
    before the first call, the two lists are different objects, and after the
    second call the first list still holds what the first call put in it. *)
Theorem prepare_messages_fresh (self1 self2 : loc) (m1 p1 m2 p2 : string)
    (history1 history2 : option loc) (hv1 hv2 : option History) (w : World) :
  read_history (heap w) history1 = Some hv1 ->
  read_history (heap w) history2 = Some hv2 ->
  exists r1 r2 w',
    (r1 <- prepare_messages self1 m1 p1 history1 ;;
     r2 <- prepare_messages self2 m2 p2 history2 ;;
     ret (r1, r2)) w
    = (w', Ok (r1, r2))
    /\ r1 <> r2
    /\ heap w !! r1 = None
    /\ heap w !! r2 = None
    /\ read_messages (heap w') r1 = Some (LLMBase.prepare_messages m1 p1 hv1)
    /\ read_messages (heap w') r2 = Some (LLMBase.prepare_messages m2 p2 hv2).
Proof.
  intros H1 H2.
  set (L1 := layout (length (heap w)) (LLMBase.prepare_messages m1 p1 hv1)).
  set (w1 := set_heap (heap w ++ L1) w).
  assert (H2' : read_history (heap w1) history2 = Some hv2)
    by apply (read_history_grow _ _ _ _ H2).
  eexists _, _, _. split.
  { rewrite (bind_ok _ _ w w1 _
               (prepare_messages_objects self1 m1 p1 history1 hv1 w H1)).
    rewrite (bind_ok _ _ w1 _ _
               (prepare_messages_objects self2 m2 p2 history2 hv2 w1 H2')).
    reflexivity. }
  simpl heap.
  assert (HL1 : 2 <= length L1).
  { unfold L1. rewrite prepare_messages_transcript. simpl. lia. }
  rewrite length_app.
  split; [lia |].
  split; [apply lookup_ge_None; lia |].
  split; [apply lookup_ge_None; lia |].
  split.
  - apply read_messages_grow, read_prepared.
  - rewrite <- length_app. apply read_prepared.
Qed.

End Fresh.

(** ** The lines of output tell how far a call got *)

Section Output.

Import LLMManager.

(** On models of the shipped classes: a call that returns has printed two
    lines, one for name A and then one for name B; a call that raises has
    printed one line at most. *)
Theorem chat_with_models_prints (fuel : nat) (draws : nat -> nat) (self : t)
    (m p : string) (h : option History) (w : World) :
  Forall shipped (models self) ->
  exists evs,
    fst (chat_with_models fuel draws self m p h w) = add_log evs w
    /\ (forall name_a name_b response_a response_b,
          snd (chat_with_models fuel draws self m p h w)
          = Ok (Some name_a, Some name_b, response_a, response_b) ->
          printed evs
          = [ ("Response for " ++ name_a ++ " was generated")%string;
              ("Response for " ++ name_b ++ " was generated")%string ])
    /\ (forall e,
          snd (chat_with_models fuel draws self m p h w) = Raise e ->
          length (printed evs) <= 1).
Proof.
  intros Hshipped.
  assert (Hnone : forall r,
    (forall v, r <> Ok v) ->
    chat_with_models fuel draws self m p h w = (w, r) ->
    exists evs,
      fst (chat_with_models fuel draws self m p h w) = add_log evs w
      /\ (forall name_a name_b response_a response_b,
            snd (chat_with_models fuel draws self m p h w)
            = Ok (Some name_a, Some name_b, response_a, response_b) ->
            printed evs
            = [ ("Response for " ++ name_a ++ " was generated")%string;
                ("Response for " ++ name_b ++ " was generated")%string ])
      /\ (forall e,
            snd (chat_with_models fuel draws self m p h w) = Raise e ->
            length (printed evs) <= 1)).
  { intros r Hr ->. exists []. rewrite add_log_nil. simpl.
    split; [done | split; [| intros; lia]].
    intros ? ? ? ? E. by destruct (Hr _ E). }
  destruct (Nat.ltb_spec (length (models self)) 2) as [Hlt | Hge].
  { eapply Hnone; [| by apply chat_with_models_too_few_run]. done. }
  destruct (random.sample fuel draws (models self) 2) as [sel | e |] eqn:Hs.
  2:{ eapply Hnone;
        [| unfold chat_with_models;
           destruct (Nat.ltb_spec (length (models self)) 2); [lia |];
           apply bind_raise; unfold lift; by rewrite Hs ].
      done. }
  2:{ eapply Hnone;
        [| unfold chat_with_models;
           destruct (Nat.ltb_spec (length (models self)) 2); [lia |];
           apply bind_unfinished; unfold lift; by rewrite Hs ].
      done. }
  assert (Hsel : length sel = 2 /\ forall x, x ∈ sel -> x ∈ models self)
    by apply (sample_from_population _ _ _ _ _ Hs).
  destruct Hsel as [Hlen Hin].
  destruct sel as [| a [| b [| c sel]]]; try done. clear Hlen Hnone.
  assert (Ha : a ∈ models self) by (apply Hin, elem_of_cons; by left).
  assert (Hb : b ∈ models self)
    by (apply Hin, elem_of_cons; right; apply elem_of_cons; by left).
  rewrite Forall_forall in Hshipped.
  rewrite (chat_with_models_of_sample fuel draws self a b m p h w Hge Hs).
  unfold one_after_the_other, bind, print, ret.
  destruct (shipped_generate_response a m p h w (Hshipped a Ha))
    as (evA & rA & -> & _ & HprA & _).
  destruct rA as [response_a | e |].
  2,3: (exists evA; simpl; rewrite HprA; simpl;
        split; [done | split; [done | intros; lia]]).
  rewrite emit_add_log, add_log_add_log.
  destruct (shipped_generate_response b m p h
              (add_log
                 (evA ++ [Print ("Response for " ++ class_name a
                                 ++ " was generated")]) w)
              (Hshipped b Hb))
    as (evB & rB & -> & _ & HprB & _).
  rewrite add_log_add_log.
  destruct rB as [response_b | e |].
  1:{ rewrite emit_add_log, add_log_add_log. eexists. split; [done |].
      rewrite !printed_app, HprA, HprB. simpl. split; [| done].
      by intros ? ? ? ? [= <- <- _ _]. }
  all: eexists; (split; [done |]);
    rewrite !printed_app, HprA, HprB; simpl; (split; [done | intros; lia]).
Qed.

End Output.

(** ** The further theorems at work *)

Lemma prepare_messages_injective_example :
  LLMBase.prepare_messages "hi" "sys" (Some [])
  = LLMBase.prepare_messages "hi" "sys" None
  /\ "hi" = "hi" /\ "sys" = "sys"
  /\ turns (Some []) = turns None.
Proof.
  split; [reflexivity |].
  apply (prepare_messages_injective "hi" "sys" "hi" "sys" (Some []) None).
  reflexivity.
Defined.

Lemma no_choice_index_error_example :
  exists req,
    generate_response gpt "hi" "sys" None mute
    = (emit (ApiCall req) mute, Raise (IndexError "list index out of range")).
Proof.
  apply (no_choice_index_error gpt "" "hi" "sys" None mute).
  - right. left. reflexivity.
  - intros req. reflexivity.
Defined.

Lemma two_classes_shipped : Forall shipped (LLMManager.models two_classes).
Proof.
  apply Forall_cons. split.
  - left. exists "gsk". reflexivity.
  - apply Forall_cons. split; [| apply Forall_nil_2].
    right. left. reflexivity.
Defined.

Lemma chat_with_models_effects_example :
  exists evs,
    fst (LLMManager.chat_with_models 1 zeros two_classes "hi" "sys" None offline)
    = add_log evs offline
    /\ length (requests evs) <= 2
    /\ length (printed evs) <= 2
    /\ (forall req, req ∈ requests evs ->
          messages req = LLMBase.prepare_messages "hi" "sys" None
          /\ max_tokens req = 1000)
    /\ (forall line, line ∈ printed evs ->
          exists model,
            model ∈ LLMManager.models two_classes
            /\ line = ("Response for " ++ class_name model
                        ++ " was generated")%string).
Proof.
  apply (chat_with_models_effects 1 zeros two_classes "hi" "sys" None offline).
  exact two_classes_shipped.
Defined.

Lemma chat_with_models_prints_example :
  exists evs,
    fst (LLMManager.chat_with_models 1 zeros two_classes "hi" "sys" None
           (online []))
    = add_log evs (online [])
    /\ printed evs
       = [ "Response for LlamaModel was generated";
           "Response for GPTModel was generated" ].
Proof.
  destruct (chat_with_models_prints 1 zeros two_classes "hi" "sys" None
              (online []) two_classes_shipped) as (evs & E & Hok & _).
  exists evs. split; [exact E |].
  apply (Hok "LlamaModel" "GPTModel"
           (Some "llama-3.1-8b-instant") (Some "gpt-3.5-turbo")).
  reflexivity.
Defined.

Lemma chat_with_models_two_models_example :
  (zeros 0 = 0
   /\ Some "LlamaModel" = Some (class_name (llama "gsk"))
   /\ Some "GPTModel" = Some (class_name gpt))
  \/ (zeros 0 = 1
      /\ Some "LlamaModel" = Some (class_name gpt)
      /\ Some "GPTModel" = Some (class_name (llama "gsk"))).
Proof.
  apply (chat_with_models_two_models 1 zeros (llama "gsk") gpt "hi" "sys" None
           (online [])
           (fst (LLMManager.chat_with_models 1 zeros two_classes "hi" "sys" None
                   (online [])))
           (Some "LlamaModel") (Some "GPTModel")
           (Some "llama-3.1-8b-instant") (Some "gpt-3.5-turbo"));
    [cbv; lia | cbv; lia | reflexivity].
Defined.

Lemma prepare_messages_fresh_example :
  let w := online [TupleList [("h1", "a1")]] in
  exists r1 r2 w',
    (r1 <- Objects.prepare_messages 0 "one" "sys" (Some 0) ;;
     r2 <- Objects.prepare_messages 0 "two" "sys" None ;;
     ret (r1, r2)) w
    = (w', Ok (r1, r2))
    /\ r1 <> r2
    /\ heap w !! r1 = None
    /\ heap w !! r2 = None
    /\ Objects.read_messages (heap w') r1
       = Some (LLMBase.prepare_messages "one" "sys" (Some [("h1", "a1")]))
    /\ Objects.read_messages (heap w') r2
       = Some (LLMBase.prepare_messages "two" "sys" None).
Proof.
  intros w.
  apply (prepare_messages_fresh 0 0 "one" "sys" "two" "sys" (Some 0) None
           (Some [("h1", "a1")]) None w); reflexivity.
Defined.
